(** * anomalib packaging script ([setup.py]): model and properties

    The script reads requirement files, adapts the installer requirement
    list to an OpenCV build already present on the host and hands the
    package descriptor to [setuptools.setup].

    Python strings are Rocq strings (code points below 256); a text file is
    the list of lines its iterator yields; the requirement directory is a
    finite map from paths to files; exceptions are values of [exn]; module
    level code runs in a state-and-exception monad over the mutable global
    [INSTALL_REQUIRES] and the standard output. *)

From Stdlib Require Import String Ascii NArith ZArith List Bool Lia.
From stdpp Require Import base option list gmap strings.

Open Scope string_scope.
Open Scope list_scope.
Open Scope stdpp_scope.

(** ** Python string primitives *)

Module Py.

(** [str.isspace] on one character, as used by [str.strip()] without
    argument: TAB..CR, FS..US, SPACE, NEL and NBSP. *)
Definition isspace (c : ascii) : bool :=
  let n := N_of_ascii c in
  ((9 <=? n) && (n <=? 13) || (28 <=? n) && (n <=? 32)
   || (n =? 133) || (n =? 160))%N.

Fixpoint lstrip (s : string) : string :=
  match s with
  | EmptyString => EmptyString
  | String c s' => if isspace c then lstrip s' else s
  end.

Fixpoint rstrip (s : string) : string :=
  match s with
  | EmptyString => EmptyString
  | String c s' =>
      match rstrip s' with
      | EmptyString => if isspace c then EmptyString else String c EmptyString
      | r => String c r
      end
  end.

(** [s.strip()] *)
Definition strip (s : string) : string := rstrip (lstrip s).

(** [s.startswith(p)] *)
Definition startswith (s p : string) : bool := String.prefix p s.

(** [s.startswith((p, q))] *)
Definition startswith_any (s : string) (ps : list string) : bool :=
  existsb (startswith s) ps.

(** Truth value of a string: non-empty. *)
Definition truthy (s : string) : bool :=
  match s with EmptyString => false | String _ _ => true end.

(** [s.split(sep)] for a non-empty separator: left to right, occurrences do
    not overlap.  [skip] counts the characters of a matched separator still
    to be dropped, [cur] is the piece under construction. *)
Fixpoint split_aux (sep : string) (skip : nat) (cur s : string) : list string :=
  match s with
  | EmptyString => [cur]
  | String c s' =>
      match skip with
      | S k => split_aux sep k cur s'
      | O =>
          if String.prefix sep s
          then cur :: split_aux sep (Nat.pred (String.length sep)) EmptyString s'
          else split_aux sep 0 (cur +:+ String c EmptyString) s'
      end
  end.

Definition split (s sep : string) : list string := split_aux sep 0 EmptyString s.

(** [xs[-1]] on the result of a split (never empty). *)
Definition last_item (xs : list string) : string := List.last xs EmptyString.

(** Whitespace skipped by [int(s)] around the literal: TAB..CR and SPACE,
    and NEL/NBSP once the string is not pure ASCII. *)
Definition int_space (c : ascii) : bool :=
  let n := N_of_ascii c in
  ((9 <=? n) && (n <=? 13) || (n =? 32) || (n =? 133) || (n =? 160))%N.

Definition is_digit (c : ascii) : bool :=
  let n := N_of_ascii c in ((48 <=? n) && (n <=? 57))%N.

Definition digit_value (c : ascii) : Z := Z.of_N (N_of_ascii c) - 48.

Fixpoint int_lstrip (s : string) : string :=
  match s with
  | EmptyString => EmptyString
  | String c s' => if int_space c then int_lstrip s' else s
  end.

Definition all_int_space (s : string) : bool :=
  match int_lstrip s with EmptyString => true | _ => false end.

(** Digits of a base-10 literal: at least one digit, single underscores
    between digits only, then optional trailing whitespace. *)
Fixpoint int_digits (acc : Z) (prev_digit : bool) (s : string) : option Z :=
  match s with
  | EmptyString => if prev_digit then Some acc else None
  | String c s' =>
      if is_digit c then int_digits (10 * acc + digit_value c) true s'
      else if Ascii.eqb c "_" then
        if prev_digit then int_digits acc false s' else None
      else if prev_digit && all_int_space s then Some acc
      else None
  end.

(** [int(s)]: [None] stands for [ValueError].  The interpreter's optional
    cap on the number of digits is a run-time setting and is left out. *)
Definition int (s : string) : option Z :=
  match int_lstrip s with
  | String "+" s' => int_digits 0 false s'
  | String "-" s' => option_map Z.opp (int_digits 0 false s')
  | s' => int_digits 0 false s'
  end.

End Py.

(** ** Exceptions and results *)

Inductive exn : Type :=
  | FileNotFoundError (path : string)
  | AttributeError (attr : string)
  | ValueError
  | RuntimeError (msg : string)
  | ImportError.

Inductive result (A : Type) : Type :=
  | Ok (a : A)
  | Raise (e : exn).
Arguments Ok {A} a.
Arguments Raise {A} e.

#[export] Instance result_ret : MRet result := fun A a => Ok a.
#[export] Instance result_bind : MBind result := fun A B f m =>
  match m with
  | Ok a => f a
  | Raise e => Raise e
  end.

Definition of_option {A} (o : option A) (e : exn) : result A :=
  match o with Some a => Ok a | None => Raise e end.

Definition is_raise {A} (r : result A) : bool :=
  match r with Ok _ => false | Raise _ => true end.

(** ** The host the script runs on *)

(** [anomalib_init]: [None] when [src/anomalib/__init__.py] is missing,
    [Some None] when it defines no [__version__]; [readme]: the text of
    [README.md]; [files]: the text files by path, each as its lines;
    [cv2]: [None] when [import cv2] raises [ImportError], else
    [cv2.__version__]; [src_packages]: what [find_packages] returns. *)
Record host : Type := Host {
  anomalib_init : option (option string);
  readme : option string;
  files : gmap string (list string);
  cv2 : option string;
  src_packages : list string
}.

(** ** Functions of the script *)

Definition get_version (h : host) : result string :=
  anomalib ← of_option (anomalib_init h)
               (FileNotFoundError "src/anomalib/__init__.py");
  of_option anomalib (AttributeError "__version__").

Definition read_text (h : host) : result string :=
  of_option (readme h) (FileNotFoundError "README.md").

Definition requirement_path (requirement_file : string) : string :=
  "requirements/" +:+ requirement_file +:+ ".txt".

(** The inner loop [for line in file] of [get_required_packages]. *)
Fixpoint scan_file (required_packages file : list string) : list string :=
  match file with
  | [] => required_packages
  | line :: file' =>
      let package := Py.strip line in
      if Py.truthy package && negb (Py.startswith_any package ["#"; "-f"])
      then scan_file (required_packages ++ [package]) file'
      else scan_file required_packages file'
  end.

(** The outer loop [for requirement_file in requirement_files]. *)
Fixpoint scan_files (fs : gmap string (list string))
    (required_packages requirement_files : list string) : result (list string) :=
  match requirement_files with
  | [] => Ok required_packages
  | requirement_file :: rest =>
      match fs !! requirement_path requirement_file with
      | None => Raise (FileNotFoundError (requirement_path requirement_file))
      | Some file => scan_files fs (scan_file required_packages file) rest
      end
  end.

Definition get_required_packages (fs : gmap string (list string))
    (requirement_files : list string) : result (list string) :=
  scan_files fs [] requirement_files.

(** ** Module-level state *)

Record globals : Type := Globals {
  INSTALL_REQUIRES : list string;
  stdout : list string
}.

Definition M (A : Type) : Type := globals → result A * globals.

#[export] Instance M_ret : MRet M := fun A a g => (Ok a, g).
#[export] Instance M_bind : MBind M := fun A B f m g =>
  match m g with
  | (Ok a, g') => f a g'
  | (Raise e, g') => (Raise e, g')
  end.

Definition lift {A} (r : result A) : M A := fun g => (r, g).
Definition raise {A} (e : exn) : M A := fun g => (Raise e, g).
Definition print (msg : string) : M unit :=
  fun g => (Ok (), Globals (INSTALL_REQUIRES g) (stdout g ++ [msg])).
Definition get_INSTALL_REQUIRES : M (list string) :=
  fun g => (Ok (INSTALL_REQUIRES g), g).
Definition set_INSTALL_REQUIRES (l : list string) : M unit :=
  fun g => (Ok (), Globals l (stdout g)).

(** [try: body except ImportError: handler] *)
Definition try_except_ImportError {A} (body handler : M A) : M A := fun g =>
  match body g with
  | (Raise ImportError, g') => handler g'
  | r => r
  end.

(** [import cv2] followed by reading [cv2.__version__]. *)
Definition import_cv2 (h : host) : M string :=
  lift (of_option (cv2 h) ImportError).

(** [a, b, *rest = xs] *)
Definition unpack2 (xs : list string) : result (string * string) :=
  match xs with
  | a :: b :: _ => Ok (a, b)
  | _ => Raise ValueError
  end.

Definition int (s : string) : result Z := of_option (Py.int s) ValueError.

(** [next((req for req in reqs if req.startswith("opencv-python")), None)] *)
Fixpoint find_opencv (reqs : list string) : option string :=
  match reqs with
  | [] => None
  | req :: reqs' =>
      if Py.startswith req "opencv-python" then Some req else find_opencv reqs'
  end.

(** [l.remove(x)]: drops the first item equal to [x]. *)
Fixpoint list_remove (x : string) (l : list string) : result (list string) :=
  match l with
  | [] => Raise ValueError
  | y :: l' =>
      if String.eqb y x then Ok l' else l'' ← list_remove x l'; Ok (y :: l'')
  end.

Definition too_old_msg (req_major req_minor version : string) : string :=
  "OpenCV >=" +:+ req_major +:+ "." +:+ req_minor +:+ " is required but "
    +:+ version +:+ " is installed".

(** The condition [int(major) < int(req_major) and int(minor) < int(req_minor)];
    [and] evaluates its right operand only when the left one is true. *)
Definition older (major minor req_major req_minor : string) : result bool :=
  a ← int major;
  c ← int req_major;
  if (a <? c)%Z
  then b ← int minor; d ← int req_minor; Ok (b <? d)%Z
  else Ok false.

(** The body of the [try] statement. *)
Definition reconcile_body (h : host) : M unit :=
  version ← import_cv2 h;
  '(major, minor) ← lift (unpack2 (Py.split version "."));
  reqs ← get_INSTALL_REQUIRES;
  match find_opencv reqs with
  | None => mret ()
  | Some opencv_base =>
      let opencv_base_version := Py.last_item (Py.split opencv_base ">=") in
      '(req_major, req_minor) ← lift (unpack2 (Py.split opencv_base_version "."));
      too_old ← lift (older major minor req_major req_minor);
      if (too_old : bool)
      then raise (RuntimeError (too_old_msg req_major req_minor version))
      else
        print "Removing OpenCV requirement since it was found";;
        reqs' ← get_INSTALL_REQUIRES;
        reqs'' ← lift (list_remove opencv_base reqs');
        set_INSTALL_REQUIRES reqs''
  end.

Definition reconcile (h : host) : M unit :=
  try_except_ImportError (reconcile_body h)
    (print "Installing OpenCV since no installation was found").

(** ** The package descriptor handed to [setup] *)

Record descriptor : Type := Descriptor {
  name : string;
  version : string;
  author : string;
  author_email : string;
  description : string;
  long_description : string;
  long_description_content_type : string;
  url : string;
  license : string;
  python_requires : string;
  package_dir : list (string * string);
  packages : list string;
  install_requires : list string;
  extras_require : list (string * list string);
  entry_points : list (string * list string)
}.

(** The keyword arguments of the call [setup(...)]. *)
Definition setup_args (h : host) (version LONG_DESCRIPTION : string)
    (INSTALL_REQUIRES : list string)
    (EXTRAS_REQUIRE : list (string * list string)) : descriptor :=
  {|
    name := "anomalib";
    version := version;
    author := "Intel OpenVINO";
    author_email := "help@openvino.intel.com";
    description := "anomalib - Anomaly Detection Library";
    long_description := LONG_DESCRIPTION;
    long_description_content_type := "text/markdown";
    url := "";
    license := "Copyright (c) Intel - All Rights Reserved. "
      +:+ "Licensed under the Apache License, Version 2.0 (the "
      +:+ String "034" "License" +:+ String "034" ")"
      +:+ "See LICENSE file for more details.";
    python_requires := ">=3.10";
    package_dir := [("", "src")];
    packages := src_packages h;
    install_requires := INSTALL_REQUIRES;
    extras_require := EXTRAS_REQUIRE;
    entry_points := [("console_scripts", ["anomalib=anomalib.cli.cli:main"])]
  |}.

(** The dictionary [EXTRAS_REQUIRE], in insertion order. *)
Definition extras (loggers core notebooks openvino full : list string)
    : list (string * list string) :=
  [("loggers", loggers); ("core", core); ("notebooks", notebooks);
   ("openvino", openvino); ("full", full)].

(** The whole script, top to bottom. *)
Definition script (h : host) : M descriptor :=
  VERSION ← lift (get_version h);
  LONG_DESCRIPTION ← lift (read_text h);
  installer ← lift (get_required_packages (files h) ["installer"]);
  set_INSTALL_REQUIRES installer;;
  loggers ← lift (get_required_packages (files h) ["loggers"]);
  core ← lift (get_required_packages (files h) ["core"]);
  notebooks ← lift (get_required_packages (files h) ["notebooks"]);
  openvino ← lift (get_required_packages (files h) ["openvino"]);
  full ← lift (get_required_packages (files h) ["loggers"; "notebooks"; "openvino"]);
  let EXTRAS_REQUIRE := extras loggers core notebooks openvino full in
  reconcile h;;
  version ← lift (get_version h);
  requires ← get_INSTALL_REQUIRES;
  mret (setup_args h version LONG_DESCRIPTION requires EXTRAS_REQUIRE).

Definition initial : globals := Globals [] [].

(** Running the script: the descriptor or the uncaught exception, with the
    final globals. *)
Definition run (h : host) : result descriptor * globals := script h initial.

(** ** Words of the specification *)

(** A line contributes to a requirement list when it is non-empty and starts
    with neither the comment marker nor the flag marker. *)
Definition is_requirement (package : string) : bool :=
  negb (String.eqb package "")
  && negb (String.prefix "#" package) && negb (String.prefix "-f" package).

(** The stripped lines of a file that are requirements, in file order. *)
Definition valid_specifiers (file : list string) : list string :=
  List.filter is_requirement (List.map Py.strip file).

(** Lookup in an insertion-ordered dictionary. *)
Fixpoint dict_get {V} (d : list (string * V)) (k : string) : option V :=
  match d with
  | [] => None
  | (k', v) :: d' => if String.eqb k' k then Some v else dict_get d' k
  end.

(** The five requirement files the script reads. *)
Definition categories : list string :=
  ["installer"; "loggers"; "core"; "notebooks"; "openvino"].

(** The text of a specifier after its last [>=], and the dot-separated
    segments of a version text. *)
Definition minimum_text (specifier : string) : string :=
  Py.last_item (Py.split specifier ">=").
Definition segments (version : string) : list string := Py.split version ".".

Definition removing_msg : string := "Removing OpenCV requirement since it was found".
Definition installing_msg : string := "Installing OpenCV since no installation was found".

(** No entry of a requirement list starts with the OpenCV package name. *)
Definition not_opencv (req : string) : Prop :=
  Py.startswith req "opencv-python" = false.

Ltac unfold_monad :=
  unfold import_cv2;
  unfold mbind, mret, M_bind, M_ret, result_bind, result_ret, lift, raise,
    print, get_INSTALL_REQUIRES, set_INSTALL_REQUIRES, of_option.

Ltac step := cbv beta iota zeta.

(** [sep] occurs in [s]. *)
Definition occurs (sep s : string) : Prop :=
  ∃ pre post, s = pre +:+ sep +:+ post.

(** Decision procedure for [occurs]. *)
Fixpoint occursb (sep s : string) : bool :=
  match s with
  | EmptyString => String.prefix sep EmptyString
  | String _ s' => String.prefix sep s || occursb sep s'
  end.

(** Everything the script reads before the [try] statement was read. *)
Record prelude (h : host) (v t : string)
    (installer loggers core notebooks openvino : list string) : Prop := {
  prelude_version : get_version h = Ok v;
  prelude_readme : read_text h = Ok t;
  prelude_installer : get_required_packages (files h) ["installer"] = Ok installer;
  prelude_loggers : get_required_packages (files h) ["loggers"] = Ok loggers;
  prelude_core : get_required_packages (files h) ["core"] = Ok core;
  prelude_notebooks : get_required_packages (files h) ["notebooks"] = Ok notebooks;
  prelude_openvino : get_required_packages (files h) ["openvino"] = Ok openvino
}.

(** Lexicographic order on (major, minor): the installed version is older
    than the required one. *)
Definition version_lt (major minor req_major req_minor : Z) : Prop :=
  (major < req_major ∨ (major = req_major ∧ minor < req_minor))%Z.

(** ** Sample hosts *)

Definition sample_files : gmap string (list string) :=
  list_to_map
    [("requirements/installer.txt",
      ["# Installer requirements"; ""; "-f https://download.example.org/whl";
       "  opencv-python>=4.5.0  "; "numpy>=1.21"]);
     ("requirements/loggers.txt", ["wandb"; "comet-ml"]);
     ("requirements/core.txt", ["torch>=2.0"]);
     ("requirements/notebooks.txt", ["# notebooks"; "ipykernel"; "wandb"]);
     ("requirements/openvino.txt", ["openvino>=2023.0"; "onnx>=1.13"])].

Definition sample_host (cv2 : option string) : host :=
  Host (Some (Some "1.0.0")) (Some "# Anomalib") sample_files cv2 ["anomalib"].

(** The ways through the [try] statement, each with its outcome. *)
Inductive reconcile_path (h : host) (g : globals)
    : result () * globals → Prop :=
  | path_absent :
      cv2 h = None →
      reconcile_path h g
        (Ok (), Globals (INSTALL_REQUIRES g) (stdout g ++ [installing_msg]))
  | path_short v :
      cv2 h = Some v → unpack2 (segments v) = Raise ValueError →
      reconcile_path h g (Raise ValueError, g)
  | path_no_entry v major minor rest :
      cv2 h = Some v → segments v = major :: minor :: rest →
      find_opencv (INSTALL_REQUIRES g) = None →
      reconcile_path h g (Ok (), g)
  | path_req_short v major minor rest ob :
      cv2 h = Some v → segments v = major :: minor :: rest →
      find_opencv (INSTALL_REQUIRES g) = Some ob →
      unpack2 (segments (minimum_text ob)) = Raise ValueError →
      reconcile_path h g (Raise ValueError, g)
  | path_not_int v major minor rest ob req_major req_minor req_rest :
      cv2 h = Some v → segments v = major :: minor :: rest →
      find_opencv (INSTALL_REQUIRES g) = Some ob →
      segments (minimum_text ob) = req_major :: req_minor :: req_rest →
      older major minor req_major req_minor = Raise ValueError →
      reconcile_path h g (Raise ValueError, g)
  | path_too_old v major minor rest ob req_major req_minor req_rest :
      cv2 h = Some v → segments v = major :: minor :: rest →
      find_opencv (INSTALL_REQUIRES g) = Some ob →
      segments (minimum_text ob) = req_major :: req_minor :: req_rest →
      older major minor req_major req_minor = Ok true →
      reconcile_path h g
        (Raise (RuntimeError (too_old_msg req_major req_minor v)), g)
  | path_removed v major minor rest ob req_major req_minor req_rest l1 l2 :
      cv2 h = Some v → segments v = major :: minor :: rest →
      find_opencv (INSTALL_REQUIRES g) = Some ob →
      segments (minimum_text ob) = req_major :: req_minor :: req_rest →
      older major minor req_major req_minor = Ok false →
      INSTALL_REQUIRES g = l1 ++ ob :: l2 → Forall not_opencv l1 →
      Py.startswith ob "opencv-python" = true →
      reconcile_path h g
        (Ok (), Globals (l1 ++ l2) (stdout g ++ [removing_msg])).

(** The files named by a list of categories, in order. *)
Definition named_files (fs : gmap string (list string))
    (requirement_files : list string) (contents : list (list string)) : Prop :=
  Forall2 (λ f file, fs !! requirement_path f = Some file)
    requirement_files contents.

(** ** Collecting requirements *)

Section Collect.

Variable fs : gmap string (list string).

Lemma keep_is_requirement package :
  Py.truthy package && negb (Py.startswith_any package ["#"; "-f"])
  = is_requirement package.
Proof.
  unfold is_requirement, Py.startswith_any, Py.startswith.
  cbn [existsb]. rewrite orb_false_r, negb_orb, andb_assoc.
  destruct package; reflexivity.
Qed.

Lemma scan_file_spec file : ∀ acc,
  scan_file acc file = acc ++ valid_specifiers file.
Proof.
  unfold valid_specifiers.
  induction file as [|line file IH]; intros acc; cbn [scan_file List.map List.filter].
  - now rewrite app_nil_r.
  - rewrite keep_is_requirement.
    destruct (is_requirement (Py.strip line)); rewrite IH; [|reflexivity].
    now rewrite <- app_assoc.
Qed.

Lemma scan_files_app xs : ∀ acc ys,
  scan_files fs acc (xs ++ ys) = (acc' ← scan_files fs acc xs; scan_files fs acc' ys).
Proof.
  induction xs as [|x xs IH]; intros acc ys; cbn [scan_files app].
  - reflexivity.
  - destruct (fs !! requirement_path x); [apply IH | reflexivity].
Qed.

Lemma scan_files_acc xs : ∀ acc,
  scan_files fs acc xs = (l ← scan_files fs [] xs; Ok (acc ++ l)).
Proof.
  induction xs as [|x xs IH]; intros acc; cbn [scan_files].
  - cbn. now rewrite app_nil_r.
  - destruct (fs !! requirement_path x) as [file|]; [|reflexivity].
    rewrite (IH (scan_file acc file)), (IH (scan_file [] file)).
    rewrite !scan_file_spec. cbn [app].
    destruct (scan_files fs [] xs); cbn; [|reflexivity].
    now rewrite app_assoc.
Qed.

Lemma get_required_packages_app xs ys :
  get_required_packages fs (xs ++ ys)
  = (a ← get_required_packages fs xs;
     b ← get_required_packages fs ys; Ok (a ++ b)).
Proof.
  unfold get_required_packages. rewrite scan_files_app.
  destruct (scan_files fs [] xs) as [a|e]; cbn; [|reflexivity].
  apply scan_files_acc.
Qed.

Lemma get_required_packages_one f file :
  fs !! requirement_path f = Some file →
  get_required_packages fs [f] = Ok (valid_specifiers file).
Proof.
  intros Hf. unfold get_required_packages. cbn [scan_files]. rewrite Hf.
  now rewrite scan_file_spec.
Qed.

Lemma get_required_packages_missing_one f :
  fs !! requirement_path f = None →
  get_required_packages fs [f] = Raise (FileNotFoundError (requirement_path f)).
Proof.
  intros Hf. unfold get_required_packages. cbn [scan_files]. now rewrite Hf.
Qed.

Lemma scan_files_missing xs : ∀ acc f,
  In f xs → fs !! requirement_path f = None →
  ∃ f', In f' xs ∧ fs !! requirement_path f' = None
        ∧ scan_files fs acc xs = Raise (FileNotFoundError (requirement_path f')).
Proof.
  induction xs as [|x xs IH]; intros acc f Hin Hf; [destruct Hin|].
  cbn [scan_files].
  destruct (fs !! requirement_path x) as [file|] eqn:Hx.
  - destruct Hin as [->|Hin]; [congruence|].
    destruct (IH (scan_file acc file) f Hin Hf) as (f' & Hin' & Hf' & Heq).
    exists f'. split; [now right|]. now split.
  - exists x. split; [now left|]. now split.
Qed.

Lemma scan_files_present xs : ∀ acc,
  Forall (λ f, is_Some (fs !! requirement_path f)) xs →
  ∃ l, scan_files fs acc xs = Ok l.
Proof.
  induction xs as [|x xs IH]; intros acc Hall; cbn [scan_files].
  - now exists acc.
  - inversion Hall as [|? ? [file Hx] Hrest]; subst. rewrite Hx. now apply IH.
Qed.

Lemma valid_specifiers_sound file :
  Forall (λ package, package ≠ "" ∧ String.prefix "#" package = false
                     ∧ String.prefix "-f" package = false)
         (valid_specifiers file).
Proof.
  unfold valid_specifiers. apply List.Forall_forall. intros p Hp.
  apply List.filter_In in Hp as [_ Hp]. unfold is_requirement in Hp.
  apply andb_prop in Hp as [Hp H3]. apply andb_prop in Hp as [H1 H2].
  apply negb_true_iff in H1, H2, H3.
  split; [|now split]. intros ->. discriminate.
Qed.

End Collect.

(** ** Reconciling the OpenCV requirement *)

Lemma find_opencv_None reqs :
  find_opencv reqs = None ↔ Forall not_opencv reqs.
Proof.
  induction reqs as [|r reqs IH]; cbn [find_opencv].
  - split; auto.
  - destruct (Py.startswith r "opencv-python") eqn:Hr.
    + split; [discriminate|]. intros H. inversion H; subst.
      unfold not_opencv in *. congruence.
    + rewrite IH. split; [now constructor | intros H; now inversion H].
Qed.

Lemma find_opencv_first l1 ob l2 :
  Forall not_opencv l1 → Py.startswith ob "opencv-python" = true →
  find_opencv (l1 ++ ob :: l2) = Some ob.
Proof.
  induction 1 as [|r l1 Hr _ IH]; intros Hob; cbn [find_opencv app].
  - now rewrite Hob.
  - unfold not_opencv in Hr. rewrite Hr. now apply IH.
Qed.

Lemma find_opencv_Some reqs ob :
  find_opencv reqs = Some ob →
  ∃ l1 l2, reqs = l1 ++ ob :: l2 ∧ Forall not_opencv l1
           ∧ Py.startswith ob "opencv-python" = true.
Proof.
  induction reqs as [|r reqs IH]; cbn [find_opencv]; [discriminate|].
  destruct (Py.startswith r "opencv-python") eqn:Hr.
  - intros [= ->]. exists [], reqs. now repeat split.
  - intros H. destruct (IH H) as (l1 & l2 & -> & Hl1 & Hob).
    exists (r :: l1), l2. repeat split; [now constructor | assumption].
Qed.

Lemma list_remove_first l1 ob l2 :
  Forall not_opencv l1 → Py.startswith ob "opencv-python" = true →
  list_remove ob (l1 ++ ob :: l2) = Ok (l1 ++ l2).
Proof.
  induction 1 as [|r l1 Hr _ IH]; intros Hob; cbn [list_remove app].
  - now rewrite String.eqb_refl.
  - destruct (String.eqb_spec r ob) as [->|_].
    + unfold not_opencv in Hr. congruence.
    + rewrite (IH Hob). reflexivity.
Qed.

Lemma older_cases major minor req_major req_minor :
  (∃ b, older major minor req_major req_minor = Ok b)
  ∨ older major minor req_major req_minor = Raise ValueError.
Proof.
  unfold older, int. unfold_monad.
  destruct (Py.int major); [|now right].
  destruct (Py.int req_major) as [c|]; [|now right].
  destruct (_ <? _)%Z; [|left; eauto].
  destruct (Py.int minor); [|now right].
  destruct (Py.int req_minor); [left; eauto | now right].
Qed.

Lemma older_ints major minor req_major req_minor a b c d :
  Py.int major = Some a → Py.int minor = Some b →
  Py.int req_major = Some c → Py.int req_minor = Some d →
  older major minor req_major req_minor = Ok ((a <? c)%Z && (b <? d)%Z).
Proof.
  intros Ha Hb Hc Hd. unfold older, int. unfold_monad.
  rewrite Ha, Hc. destruct (a <? c)%Z; [|reflexivity].
  now rewrite Hb, Hd.
Qed.

Section Reconcile.

Variables (h : host) (g : globals).

Lemma reconcile_absent :
  cv2 h = None →
  reconcile h g = (Ok (), Globals (INSTALL_REQUIRES g) (stdout g ++ [installing_msg])).
Proof.
  intros Hcv. unfold reconcile, try_except_ImportError, reconcile_body.
  unfold_monad. now rewrite Hcv.
Qed.

Lemma reconcile_short v :
  cv2 h = Some v → unpack2 (segments v) = Raise ValueError →
  reconcile h g = (Raise ValueError, g).
Proof.
  intros Hcv Hv. unfold reconcile, try_except_ImportError, reconcile_body.
  unfold_monad. rewrite Hcv. step. unfold segments in Hv. now rewrite Hv.
Qed.

Lemma reconcile_no_opencv v major minor rest :
  cv2 h = Some v → segments v = major :: minor :: rest →
  find_opencv (INSTALL_REQUIRES g) = None →
  reconcile h g = (Ok (), g).
Proof.
  intros Hcv Hv Hf. unfold reconcile, try_except_ImportError, reconcile_body.
  unfold_monad. rewrite Hcv. step. unfold segments in Hv. rewrite Hv.
  cbn [unpack2]. step. now rewrite Hf.
Qed.

Lemma reconcile_req_short v major minor rest ob :
  cv2 h = Some v → segments v = major :: minor :: rest →
  find_opencv (INSTALL_REQUIRES g) = Some ob →
  unpack2 (segments (minimum_text ob)) = Raise ValueError →
  reconcile h g = (Raise ValueError, g).
Proof.
  intros Hcv Hv Hf Hob. unfold reconcile, try_except_ImportError, reconcile_body.
  unfold_monad. rewrite Hcv. step. unfold segments, minimum_text in *.
  rewrite Hv. cbn [unpack2]. step. rewrite Hf. now rewrite Hob.
Qed.

Section Parsed.

Variables (v major minor : string) (rest : list string).
Variables (ob req_major req_minor : string) (req_rest : list string).
Hypothesis Hcv : cv2 h = Some v.
Hypothesis Hv : segments v = major :: minor :: rest.
Hypothesis Hf : find_opencv (INSTALL_REQUIRES g) = Some ob.
Hypothesis Hob : segments (minimum_text ob) = req_major :: req_minor :: req_rest.

Lemma reconcile_value_error :
  older major minor req_major req_minor = Raise ValueError →
  reconcile h g = (Raise ValueError, g).
Proof.
  intros Ho. unfold reconcile, try_except_ImportError, reconcile_body.
  unfold_monad. rewrite Hcv. step. unfold segments, minimum_text in *.
  rewrite Hv. cbn [unpack2]. step. rewrite Hf, Hob. cbn [unpack2]. step.
  now rewrite Ho.
Qed.

Lemma reconcile_too_old :
  older major minor req_major req_minor = Ok true →
  reconcile h g = (Raise (RuntimeError (too_old_msg req_major req_minor v)), g).
Proof.
  intros Ho. unfold reconcile, try_except_ImportError, reconcile_body.
  unfold_monad. rewrite Hcv. step. unfold segments, minimum_text in *.
  rewrite Hv. cbn [unpack2]. step. rewrite Hf, Hob. cbn [unpack2]. step.
  now rewrite Ho.
Qed.

Lemma reconcile_removes :
  older major minor req_major req_minor = Ok false →
  ∃ l1 l2, INSTALL_REQUIRES g = l1 ++ ob :: l2 ∧ Forall not_opencv l1
    ∧ reconcile h g = (Ok (), Globals (l1 ++ l2) (stdout g ++ [removing_msg])).
Proof.
  intros Ho. destruct (find_opencv_Some _ _ Hf) as (l1 & l2 & Hg & Hl1 & Hpre).
  exists l1, l2. split; [assumption|]. split; [assumption|].
  unfold reconcile, try_except_ImportError, reconcile_body.
  unfold_monad. rewrite Hcv. step. unfold segments, minimum_text in *.
  rewrite Hv. cbn [unpack2]. step. rewrite Hf, Hob. cbn [unpack2]. step.
  rewrite Ho. cbn [INSTALL_REQUIRES stdout]. rewrite Hg at 1.
  now rewrite (list_remove_first _ _ _ Hl1 Hpre).
Qed.

End Parsed.

End Reconcile.

(** ** The script as a whole *)

Lemma full_extra fs loggers notebooks openvino :
  get_required_packages fs ["loggers"] = Ok loggers →
  get_required_packages fs ["notebooks"] = Ok notebooks →
  get_required_packages fs ["openvino"] = Ok openvino →
  get_required_packages fs ["loggers"; "notebooks"; "openvino"]
  = Ok (loggers ++ notebooks ++ openvino).
Proof.
  intros Hl Hn Ho.
  change ["loggers"; "notebooks"; "openvino"]
    with (["loggers"] ++ ["notebooks"] ++ ["openvino"]).
  rewrite !get_required_packages_app, Hl, Hn, Ho. reflexivity.
Qed.

Lemma run_after_prelude h v t installer loggers core notebooks openvino :
  prelude h v t installer loggers core notebooks openvino →
  run h =
    match reconcile h (Globals installer []) with
    | (Ok _, g') =>
        (Ok (setup_args h v t (INSTALL_REQUIRES g')
               (extras loggers core notebooks openvino
                  (loggers ++ notebooks ++ openvino))), g')
    | (Raise e, g') => (Raise e, g')
    end.
Proof.
  intros [Hv Ht Hi Hl Hc Hn Ho]. unfold run, script. unfold_monad.
  rewrite Hv, Ht, Hi, Hl, Hc, Hn, Ho, (full_extra _ _ _ _ Hl Hn Ho).
  cbn [initial stdout INSTALL_REQUIRES].
  destruct (reconcile h (Globals installer [])) as [[[]|e] g']; reflexivity.
Qed.

Lemma run_Ok_inv h d g' :
  run h = (Ok d, g') →
  ∃ v t installer loggers core notebooks openvino,
    prelude h v t installer loggers core notebooks openvino
    ∧ reconcile h (Globals installer []) = (Ok (), g')
    ∧ d = setup_args h v t (INSTALL_REQUIRES g')
            (extras loggers core notebooks openvino
               (loggers ++ notebooks ++ openvino)).
Proof.
  unfold run, script. unfold_monad.
  destruct (get_version h) as [v|] eqn:Hv; [|discriminate].
  destruct (read_text h) as [t|] eqn:Ht; [|discriminate].
  destruct (get_required_packages (files h) ["installer"]) as [i|] eqn:Hi;
    [|discriminate].
  destruct (get_required_packages (files h) ["loggers"]) as [l|] eqn:Hl;
    [|discriminate].
  destruct (get_required_packages (files h) ["core"]) as [c|] eqn:Hc;
    [|discriminate].
  destruct (get_required_packages (files h) ["notebooks"]) as [n|] eqn:Hn;
    [|discriminate].
  destruct (get_required_packages (files h) ["openvino"]) as [o|] eqn:Ho;
    [|discriminate].
  rewrite (full_extra _ _ _ _ Hl Hn Ho). cbn [initial stdout INSTALL_REQUIRES].
  destruct (reconcile h (Globals i [])) as [[[]|e] g''] eqn:Hr; [|discriminate].
  intros [= <- <-]. exists v, t, i, l, c, n, o.
  split; [now constructor|]. now split.
Qed.

Lemma run_missing_file h f :
  In f categories → files h !! requirement_path f = None →
  ∃ e g', run h = (Raise e, g') ∧ stdout g' = []
    ∧ (is_raise (get_version h) = false → is_raise (read_text h) = false →
       ∃ f', In f' categories ∧ files h !! requirement_path f' = None
             ∧ e = FileNotFoundError (requirement_path f')).
Proof.
  intros Hin Hf. unfold run, script. unfold_monad.
  destruct (get_version h) as [v|ev]; cbn [is_raise];
    [|exists ev, initial; repeat split; discriminate].
  destruct (read_text h) as [t|et]; cbn [is_raise];
    [|exists et, initial; repeat split; discriminate].
  assert (Hstop : ∀ c l, In c categories →
            files h !! requirement_path c = None →
            ∃ e g', (@Raise descriptor (FileNotFoundError (requirement_path c)),
                     Globals l []) = (Raise e, g') ∧ stdout g' = []
              ∧ (false = false → false = false →
                 ∃ f', In f' categories ∧ files h !! requirement_path f' = None
                       ∧ e = FileNotFoundError (requirement_path f'))).
  { intros c l Hc Hnone. eexists _, _. split; [reflexivity|]. split; [reflexivity|].
    intros _ _. exists c. now repeat split. }
  destruct (files h !! requirement_path "installer") as [fi|] eqn:Hi.
  2:{ rewrite (get_required_packages_missing_one _ _ Hi).
      apply (Hstop "installer"); [cbn; tauto | assumption]. }
  rewrite (get_required_packages_one _ _ _ Hi). cbn [initial stdout].
  destruct (files h !! requirement_path "loggers") as [fl|] eqn:Hl.
  2:{ rewrite (get_required_packages_missing_one _ _ Hl).
      apply (Hstop "loggers"); [cbn; tauto | assumption]. }
  rewrite (get_required_packages_one _ _ _ Hl).
  destruct (files h !! requirement_path "core") as [fc|] eqn:Hc.
  2:{ rewrite (get_required_packages_missing_one _ _ Hc).
      apply (Hstop "core"); [cbn; tauto | assumption]. }
  rewrite (get_required_packages_one _ _ _ Hc).
  destruct (files h !! requirement_path "notebooks") as [fn|] eqn:Hn.
  2:{ rewrite (get_required_packages_missing_one _ _ Hn).
      apply (Hstop "notebooks"); [cbn; tauto | assumption]. }
  rewrite (get_required_packages_one _ _ _ Hn).
  destruct (files h !! requirement_path "openvino") as [fo|] eqn:Ho.
  2:{ rewrite (get_required_packages_missing_one _ _ Ho).
      apply (Hstop "openvino"); [cbn; tauto | assumption]. }
  exfalso. cbn in Hin.
  destruct Hin as [<-|[<-|[<-|[<-|[<-|[]]]]]]; congruence.
Qed.

(** ** Facts about [split] *)

Lemma append_cons c s t : String c s +:+ t = String c (s +:+ t).
Proof. reflexivity. Qed.

Lemma append_nil_l s : "" +:+ s = s.
Proof. reflexivity. Qed.

Lemma append_nil_r s : s +:+ "" = s.
Proof.
  induction s as [|c s IH]; [reflexivity | now rewrite append_cons, IH].
Qed.

Lemma append_assoc s t u : (s +:+ t) +:+ u = s +:+ t +:+ u.
Proof.
  induction s as [|c s IH]; [reflexivity | now rewrite !append_cons, IH].
Qed.

Lemma prefix_cons c p c' s :
  String.prefix (String c p) (String c' s)
  = if Ascii.ascii_dec c c' then String.prefix p s else false.
Proof. reflexivity. Qed.

Lemma prefix_app p : ∀ s, String.prefix p s = true ↔ ∃ post, s = p +:+ post.
Proof.
  induction p as [|c p IH]; intros s.
  - split; [intros _; now exists s | now destruct s].
  - destruct s as [|c' s].
    + split; [discriminate | intros [post [=]]].
    + rewrite prefix_cons. destruct (Ascii.ascii_dec c c') as [->|Hne].
      * rewrite IH. split; intros [post H]; exists post.
        -- now rewrite append_cons, <- H.
        -- rewrite append_cons in H. congruence.
      * split; [discriminate | intros [post H]].
        rewrite append_cons in H. congruence.
Qed.

Lemma occurs_tail sep c s : occurs sep s → occurs sep (String c s).
Proof. intros (pre & post & ->). now exists (String c pre), post. Qed.

Lemma occursb_spec sep s : occursb sep s = true ↔ occurs sep s.
Proof.
  induction s as [|c s IH]; cbn [occursb].
  - rewrite prefix_app. split.
    + intros [post H]. now exists "", post.
    + intros ([|c pre] & post & H); [now exists post | discriminate].
  - rewrite orb_true_iff, IH, prefix_app. split.
    + intros [[post H] | H]; [now exists "", post | now apply occurs_tail].
    + intros ([|c' pre] & post & H).
      * left. now exists post.
      * right. rewrite append_cons in H. injection H as _ ->. now exists pre, post.
Qed.

Lemma occursb_false sep s : occursb sep s = false → ¬ occurs sep s.
Proof. intros Hb Ho. apply occursb_spec in Ho. congruence. Qed.

Lemma split_aux_absent sep s : ∀ cur,
  ¬ occurs sep s → Py.split_aux sep 0 cur s = [cur +:+ s].
Proof.
  induction s as [|c s IH]; intros cur Hno; cbn [Py.split_aux].
  - now rewrite append_nil_r.
  - destruct (String.prefix sep (String c s)) eqn:Hp.
    + exfalso. apply Hno. apply prefix_app in Hp as [post ->].
      now exists "", post.
    + rewrite IH.
      * now rewrite append_assoc.
      * intros H. apply Hno. now apply occurs_tail.
Qed.

Lemma split_absent sep s : ¬ occurs sep s → Py.split s sep = [s].
Proof. intros H. unfold Py.split. now rewrite split_aux_absent. Qed.

Lemma split_aux_head sep s : ∀ k cur,
  ∃ x rest, Py.split_aux sep k cur s = (cur +:+ x) :: rest.
Proof.
  induction s as [|c s IH]; intros k cur; cbn [Py.split_aux].
  - exists "", []. now rewrite append_nil_r.
  - destruct k as [|k]; [|apply IH].
    destruct (String.prefix sep (String c s)).
    + exists "". eexists. now rewrite append_nil_r.
    + destruct (IH 0 (cur +:+ String c "")) as (x & rest & ->).
      exists (String c x), rest. now rewrite append_assoc.
Qed.

Lemma last_item_cons x l : l ≠ [] → Py.last_item (x :: l) = Py.last_item l.
Proof. unfold Py.last_item. destruct l; [congruence | reflexivity]. Qed.

Lemma split_aux_nonempty sep k cur s : Py.split_aux sep k cur s ≠ [].
Proof. destruct (split_aux_head sep s k cur) as (x & rest & ->). discriminate. Qed.

Lemma prefix_self sep post : String.prefix sep (sep +:+ post) = true.
Proof. apply prefix_app. now exists post. Qed.

(** The text after the last [>=] is what [split(">=")[-1]] returns. *)
Lemma last_after_ge post : ¬ occurs ">=" post →
  ∀ pre k cur, (k ≤ String.length pre)%nat →
    Py.last_item (Py.split_aux ">=" k cur (pre +:+ ">=" +:+ post)) = post.
Proof.
  intros Hno. induction pre as [|c pre IH]; intros k cur Hk.
  - cbn in Hk. assert (k = 0) as -> by lia. rewrite append_nil_l.
    pose proof (prefix_self ">=" post) as Hp.
    change (">=" +:+ post) with (String ">" (String "=" post)) in *.
    cbn [Py.split_aux]. rewrite Hp. cbn [String.length Nat.pred Py.split_aux].
    rewrite split_aux_absent by assumption. reflexivity.
  - rewrite append_cons. cbn [Py.split_aux]. destruct k as [|k].
    + destruct (String.prefix ">=" (String c (pre +:+ ">=" +:+ post))) eqn:Hp.
      * rewrite last_item_cons by apply split_aux_nonempty.
        apply IH. cbn [String.length Nat.pred].
        destruct pre as [|c' pre]; [|cbn; lia].
        change ("" +:+ ">=" +:+ post) with (String ">" (String "=" post)) in Hp.
        rewrite !prefix_cons in Hp.
        destruct (Ascii.ascii_dec ">" c); [|discriminate].
        destruct (Ascii.ascii_dec "=" ">"); discriminate.
      * apply IH. lia.
    + apply IH. cbn in Hk. lia.
Qed.

Lemma minimum_text_after_ge name ver :
  ¬ occurs ">=" ver → minimum_text (name +:+ ">=" +:+ ver) = ver.
Proof.
  intros Hno. unfold minimum_text, Py.split. apply last_after_ge; [assumption | lia].
Qed.

(** A text with a dot has at least two segments. *)
Lemma segments_dot a b : ∀ cur,
  ∃ major minor rest,
    Py.split_aux "." 0 cur (a +:+ "." +:+ b) = major :: minor :: rest.
Proof.
  induction a as [|c a IH]; intros cur.
  - rewrite append_nil_l. pose proof (prefix_self "." b) as Hp.
    change ("." +:+ b) with (String "." b) in *.
    cbn [Py.split_aux]. rewrite Hp. cbn [String.length Nat.pred].
    destruct (split_aux_head "." b 0 "") as (x & rest & ->).
    now exists cur, ("" +:+ x), rest.
  - rewrite append_cons. cbn [Py.split_aux].
    destruct (String.prefix "." (String c (a +:+ "." +:+ b))).
    + cbn [String.length Nat.pred].
      destruct (split_aux_head "." (a +:+ "." +:+ b) 0 "") as (x & rest & ->).
      now exists cur, ("" +:+ x), rest.
    + apply IH.
Qed.

Lemma segments_with_dot a b :
  ∃ major minor rest, segments (a +:+ "." +:+ b) = major :: minor :: rest.
Proof. apply segments_dot. Qed.

(** A text without a dot is a single segment. *)
Lemma segments_no_dot v : ¬ occurs "." v → segments v = [v].
Proof. apply split_absent. Qed.

Lemma int_opencv x : Py.int ("opencv-python" +:+ x) = None.
Proof. reflexivity. Qed.

(** Without [>=] the first segment of the specifier still carries the
    package name, which is no integer literal. *)
Lemma no_ge_segments ob :
  Py.startswith ob "opencv-python" = true → ¬ occurs ">=" ob →
  unpack2 (segments (minimum_text ob)) = Raise ValueError
  ∨ ∃ req_major req_minor req_rest,
      segments (minimum_text ob) = req_major :: req_minor :: req_rest
      ∧ Py.int req_major = None.
Proof.
  intros Hpre Hno. unfold minimum_text. rewrite (split_absent _ _ Hno).
  cbn [Py.last_item List.last].
  apply prefix_app in Hpre as [tail ->]. unfold segments, Py.split.
  change (Py.split_aux "." 0 "" ("opencv-python" +:+ tail))
    with (Py.split_aux "." 0 "opencv-python" tail).
  destruct (split_aux_head "." tail 0 "opencv-python") as (x & rest & ->).
  destruct rest as [|req_minor rest]; [now left|].
  right. exists ("opencv-python" +:+ x), req_minor, rest.
  split; [reflexivity | apply int_opencv].
Qed.

Lemma run_raise_iff h v t installer loggers core notebooks openvino :
  prelude h v t installer loggers core notebooks openvino →
  is_raise (run h).1 = is_raise (reconcile h (Globals installer [])).1.
Proof.
  intros Hp. rewrite (run_after_prelude _ _ _ _ _ _ _ _ Hp).
  destruct (reconcile h (Globals installer [])) as [[[]|e] g']; reflexivity.
Qed.

Lemma sample_prelude cv :
  prelude (sample_host cv) "1.0.0" "# Anomalib"
    ["opencv-python>=4.5.0"; "numpy>=1.21"] ["wandb"; "comet-ml"]
    ["torch>=2.0"] ["ipykernel"; "wandb"] ["openvino>=2023.0"; "onnx>=1.13"].
Proof. constructor; vm_compute; reflexivity. Qed.

(** * Properties stated by the specification *)

(** C4. For every requirement file, [get_required_packages] returns exactly
    the stripped lines that are non-empty and start with neither [#] nor
    [-f], in file order; hence every returned element is non-empty and
    starts with neither marker. *)
Theorem get_required_packages_valid_specifiers
    (fs : gmap string (list string)) (f : string) (file : list string) :
  fs !! requirement_path f = Some file →
  get_required_packages fs [f] = Ok (valid_specifiers file)
  ∧ Forall (λ package, package ≠ "" ∧ Py.startswith package "#" = false
                       ∧ Py.startswith package "-f" = false)
           (valid_specifiers file).
Proof.
  intros Hf. split.
  - now apply get_required_packages_one.
  - apply valid_specifiers_sound.
Qed.

Lemma get_required_packages_valid_specifiers_witness :
  sample_files !! requirement_path "installer"
  = Some ["# Installer requirements"; ""; "-f https://download.example.org/whl";
          "  opencv-python>=4.5.0  "; "numpy>=1.21"]
  ∧ get_required_packages sample_files ["installer"]
    = Ok ["opencv-python>=4.5.0"; "numpy>=1.21"].
Proof.
  split; [vm_compute; reflexivity|].
  apply (get_required_packages_valid_specifiers sample_files "installer"
           ["# Installer requirements"; ""; "-f https://download.example.org/whl";
            "  opencv-python>=4.5.0  "; "numpy>=1.21"]).
  vm_compute; reflexivity.
Defined.

(** C5. [get_required_packages] maps the concatenation of two lists of
    category names to the concatenation of the two results, keeping
    duplicates; hence the [full] extra is the loggers list followed by the
    notebooks list followed by the openvino list. *)
Theorem get_required_packages_concat :
  (∀ fs xs ys,
     get_required_packages fs (xs ++ ys)
     = (a ← get_required_packages fs xs;
        b ← get_required_packages fs ys; Ok (a ++ b)))
  ∧ (∀ fs xs ys a b,
       get_required_packages fs xs = Ok a →
       get_required_packages fs ys = Ok b →
       get_required_packages fs (xs ++ ys) = Ok (a ++ b))
  ∧ (∀ h d g,
       run h = (Ok d, g) →
       ∃ loggers notebooks openvino,
         get_required_packages (files h) ["loggers"] = Ok loggers
         ∧ get_required_packages (files h) ["notebooks"] = Ok notebooks
         ∧ get_required_packages (files h) ["openvino"] = Ok openvino
         ∧ dict_get (extras_require d) "loggers" = Some loggers
         ∧ dict_get (extras_require d) "notebooks" = Some notebooks
         ∧ dict_get (extras_require d) "openvino" = Some openvino
         ∧ dict_get (extras_require d) "full"
           = Some (loggers ++ notebooks ++ openvino)).
Proof.
  split; [|split].
  - intros. apply get_required_packages_app.
  - intros fs xs ys a b Ha Hb. now rewrite get_required_packages_app, Ha, Hb.
  - intros h d g Hrun.
    destruct (run_Ok_inv _ _ _ Hrun) as (v & t & i & l & c & n & o & Hp & _ & ->).
    destruct Hp. exists l, n, o. now repeat split.
Qed.

Lemma get_required_packages_concat_witness :
  get_required_packages sample_files (["loggers"] ++ ["notebooks"])
  = Ok (["wandb"; "comet-ml"] ++ ["ipykernel"; "wandb"]).
Proof.
  apply (proj1 (proj2 get_required_packages_concat)); vm_compute; reflexivity.
Defined.

(** C6. When [import cv2] raises [ImportError] the reconciliation is not
    fatal: only the informational message is printed, the required list is
    left as collected, and the build reaches the descriptor with that
    list. *)
Theorem reconcile_without_cv2 (h : host) :
  cv2 h = None →
  (∀ g, reconcile h g
        = (Ok (), Globals (INSTALL_REQUIRES g) (stdout g ++ [installing_msg])))
  ∧ (∀ v t installer loggers core notebooks openvino,
       prelude h v t installer loggers core notebooks openvino →
       ∃ d, run h = (Ok d, Globals installer [installing_msg])
            ∧ install_requires d = installer).
Proof.
  intros Hcv. split.
  - intros g. now apply reconcile_absent.
  - intros v t i l c n o Hp. rewrite (run_after_prelude _ _ _ _ _ _ _ _ Hp).
    rewrite (reconcile_absent _ _ Hcv). cbn [stdout INSTALL_REQUIRES app].
    eexists. split; reflexivity.
Qed.

Lemma reconcile_without_cv2_witness :
  cv2 (sample_host None) = None
  ∧ ∃ d, run (sample_host None)
         = (Ok d, Globals ["opencv-python>=4.5.0"; "numpy>=1.21"] [installing_msg])
         ∧ install_requires d = ["opencv-python>=4.5.0"; "numpy>=1.21"].
Proof.
  split; [reflexivity|].
  apply (proj2 (reconcile_without_cv2 (sample_host None) eq_refl)
           _ _ _ _ _ _ _ (sample_prelude None)).
Defined.

(** C8. If a named requirement file does not exist, [get_required_packages]
    raises [FileNotFoundError]; nothing in the script catches it, so the
    run ends in that exception and no descriptor is produced. *)
Theorem missing_requirement_file_aborts :
  (∀ (fs : gmap string (list string)) (requirement_files : list string) f,
     In f requirement_files → fs !! requirement_path f = None →
     ∃ f', In f' requirement_files ∧ fs !! requirement_path f' = None
           ∧ get_required_packages fs requirement_files
             = Raise (FileNotFoundError (requirement_path f')))
  ∧ (∀ h f,
       In f categories → files h !! requirement_path f = None →
       ∃ e g', run h = (Raise e, g') ∧ stdout g' = []
         ∧ (is_raise (get_version h) = false →
            is_raise (read_text h) = false →
            ∃ f', In f' categories ∧ files h !! requirement_path f' = None
                  ∧ e = FileNotFoundError (requirement_path f'))).
Proof.
  split.
  - intros fs fl f Hin Hf. unfold get_required_packages.
    now apply scan_files_missing with f.
  - apply run_missing_file.
Qed.

Lemma missing_requirement_file_aborts_witness :
  ∃ f', In f' ["loggers"; "tests"; "openvino"]
        ∧ sample_files !! requirement_path f' = None
        ∧ get_required_packages sample_files ["loggers"; "tests"; "openvino"]
          = Raise (FileNotFoundError (requirement_path f')).
Proof.
  apply (proj1 missing_requirement_file_aborts sample_files
           ["loggers"; "tests"; "openvino"] "tests").
  - cbn. tauto.
  - vm_compute; reflexivity.
Defined.

(** C10, as stated, fails: the installed version is split and unpacked into
    major and minor before the requirement list is looked at, so a version
    text without a dot raises [ValueError] although no entry starts with
    [opencv-python]. *)
Lemma dotless_version_raises :
  cv2 (sample_host (Some "4")) = Some "4"
  ∧ Forall not_opencv ["numpy>=1.21"]
  ∧ reconcile (sample_host (Some "4")) (Globals ["numpy>=1.21"] [])
    = (Raise ValueError, Globals ["numpy>=1.21"] []).
Proof.
  split; [reflexivity|]. split; [|vm_compute; reflexivity].
  repeat constructor.
Qed.

(** C10, amended. When the library is importable, its version text contains
    a dot, and no entry of the required list starts with [opencv-python],
    the reconciliation raises nothing, prints nothing and leaves the list
    unchanged. *)
Theorem reconcile_without_opencv_entry (h : host) (g : globals) (v : string) :
  cv2 h = Some v → occurs "." v → Forall not_opencv (INSTALL_REQUIRES g) →
  reconcile h g = (Ok (), g).
Proof.
  intros Hcv (a & b & ->) Hall.
  destruct (segments_with_dot a b) as (major & minor & rest & Hv).
  apply reconcile_no_opencv with (1 := Hcv) (2 := Hv).
  now apply find_opencv_None.
Qed.

Lemma reconcile_without_opencv_entry_witness :
  reconcile (sample_host (Some "4.6.0")) (Globals ["numpy>=1.21"] [])
  = (Ok (), Globals ["numpy>=1.21"] []).
Proof.
  apply (reconcile_without_opencv_entry (sample_host (Some "4.6.0"))
           (Globals ["numpy>=1.21"] []) "4.6.0").
  - reflexivity.
  - exists "4", "6.0". reflexivity.
  - repeat constructor.
Defined.

(** C9, as stated, fails: [and] does not evaluate its right operand when
    the installed major is not below the required major, so a minor segment
    that is no integer literal goes unnoticed and the requirement is
    removed. *)
Lemma unread_minor_segment :
  find_opencv ["opencv-python>=4.5,<5.0"] = Some "opencv-python>=4.5,<5.0"
  ∧ segments (minimum_text "opencv-python>=4.5,<5.0") = ["4"; "5,<5"; "0"]
  ∧ Py.int "5,<5" = None
  ∧ reconcile (sample_host (Some "4.6.0")) (Globals ["opencv-python>=4.5,<5.0"] [])
    = (Ok (), Globals [] [removing_msg]).
Proof. repeat split; vm_compute; reflexivity. Qed.

(** C9, amended. When the library is importable, the reconciliation ends in
    an uncaught [ValueError], with nothing printed and the list untouched,
    if the first entry starting with [opencv-python] has no [>=], or a major
    segment (installed or required) is no integer literal, or the installed
    major is below the required major and a minor segment is no integer
    literal; the script then ends in that exception. *)
Theorem reconcile_value_errors (h : host) (g : globals) (v ob : string) :
  cv2 h = Some v → find_opencv (INSTALL_REQUIRES g) = Some ob →
  (¬ occurs ">=" ob
   ∨ ∃ major minor rest req_major req_minor req_rest,
       segments v = major :: minor :: rest
       ∧ segments (minimum_text ob) = req_major :: req_minor :: req_rest
       ∧ (Py.int major = None ∨ Py.int req_major = None
          ∨ ∃ a c, Py.int major = Some a ∧ Py.int req_major = Some c
                   ∧ (a < c)%Z
                   ∧ (Py.int minor = None ∨ Py.int req_minor = None))) →
  reconcile h g = (Raise ValueError, g)
  ∧ (∀ v' t installer loggers core notebooks openvino,
       prelude h v' t installer loggers core notebooks openvino →
       g = Globals installer [] → run h = (Raise ValueError, g)).
Proof.
  intros Hcv Hf Hbad.
  assert (Hr : reconcile h g = (Raise ValueError, g)).
  { destruct Hbad as [Hno | (major & minor & rest & rmaj & rmin & rrest
                              & Hv & Hob & Hint)].
    - destruct (find_opencv_Some _ _ Hf) as (l1 & l2 & _ & _ & Hpre).
      destruct (segments v) as [|major [|minor rest]] eqn:Hv;
        try (apply reconcile_short with v; [assumption | now rewrite Hv]).
      destruct (no_ge_segments ob Hpre Hno)
        as [Hshort | (rmaj & rmin & rrest & Hob & Hint)].
      + now apply reconcile_req_short with v major minor rest ob.
      + apply reconcile_value_error
          with v major minor rest ob rmaj rmin rrest; try assumption.
        unfold older, int. unfold_monad.
        destruct (Py.int major); [|reflexivity]. now rewrite Hint.
    - apply reconcile_value_error
        with v major minor rest ob rmaj rmin rrest; try assumption.
      unfold older, int. unfold_monad.
      destruct Hint as [-> | [Hc | (a & c & -> & -> & Hlt & Hmin)]].
      + reflexivity.
      + destruct (Py.int major); [|reflexivity]. now rewrite Hc.
      + apply Z.ltb_lt in Hlt. rewrite Hlt.
        destruct Hmin as [-> | Hd]; [reflexivity|].
        destruct (Py.int minor); [|reflexivity]. now rewrite Hd. }
  split; [assumption|].
  intros v' t i l c n o Hp ->.
  rewrite (run_after_prelude _ _ _ _ _ _ _ _ Hp). now rewrite Hr.
Qed.

Lemma reconcile_value_errors_witness :
  reconcile (sample_host (Some "4.6.0")) (Globals ["opencv-python==4.5.0"] [])
  = (Raise ValueError, Globals ["opencv-python==4.5.0"] []).
Proof.
  apply (reconcile_value_errors (sample_host (Some "4.6.0"))
           (Globals ["opencv-python==4.5.0"] []) "4.6.0" "opencv-python==4.5.0").
  - reflexivity.
  - reflexivity.
  - left. apply occursb_false. reflexivity.
Defined.

(** C1, as stated, fails: the script reads the first entry that starts with
    [opencv-python], here one without a version, and the unpacking of its
    segments raises [ValueError], although the list holds
    [opencv-python>=4.5.0] and the installed 4.6 is not below 4.5 in both
    parts. *)
Lemma first_opencv_entry_is_read :
  In "opencv-python>=4.5.0" ["opencv-python-headless"; "opencv-python>=4.5.0"]
  ∧ Py.startswith "opencv-python>=4.5.0" "opencv-python" = true
  ∧ segments (minimum_text "opencv-python>=4.5.0") = ["4"; "5"; "0"]
  ∧ segments "4.6.0" = ["4"; "6"; "0"]
  ∧ ¬ (4 < 4 ∧ 6 < 5)%Z
  ∧ reconcile (sample_host (Some "4.6.0"))
      (Globals ["opencv-python-headless"; "opencv-python>=4.5.0"] [])
    = (Raise ValueError,
       Globals ["opencv-python-headless"; "opencv-python>=4.5.0"] []).
Proof.
  split; [cbn; tauto|]. split; [reflexivity|].
  split; [vm_compute; reflexivity|]. split; [vm_compute; reflexivity|].
  split; [lia | vm_compute; reflexivity].
Qed.

(** C1, amended. When the library is importable with integer major and
    minor segments, and the text after the last [>=] of the first entry that
    starts with [opencv-python] has integer major and minor segments, the
    reconciliation raises an error exactly when the installed major is below
    the required major and the installed minor is below the required minor;
    that error is the [RuntimeError] naming both versions, and otherwise the
    step completes, printing the removal message and dropping that entry.
    The script as a whole fails under the same condition. *)
Theorem reconcile_version_check (h : host) (g : globals)
    (v major minor : string) (rest : list string)
    (ob req_major req_minor : string) (req_rest : list string) (a b c d : Z) :
  cv2 h = Some v → segments v = major :: minor :: rest →
  Py.int major = Some a → Py.int minor = Some b →
  find_opencv (INSTALL_REQUIRES g) = Some ob →
  segments (minimum_text ob) = req_major :: req_minor :: req_rest →
  Py.int req_major = Some c → Py.int req_minor = Some d →
  (is_raise (reconcile h g).1 = true ↔ (a < c ∧ b < d)%Z)
  ∧ ((a < c ∧ b < d)%Z →
     reconcile h g
     = (Raise (RuntimeError (too_old_msg req_major req_minor v)), g))
  ∧ (¬ (a < c ∧ b < d)%Z →
     ∃ l1 l2, INSTALL_REQUIRES g = l1 ++ ob :: l2 ∧ Forall not_opencv l1
       ∧ reconcile h g
         = (Ok (), Globals (l1 ++ l2) (stdout g ++ [removing_msg])))
  ∧ (∀ v' t installer loggers core notebooks openvino,
       prelude h v' t installer loggers core notebooks openvino →
       g = Globals installer [] →
       (is_raise (run h).1 = true ↔ (a < c ∧ b < d)%Z)).
Proof.
  intros Hcv Hv Ha Hb Hf Hob Hc Hd.
  pose proof (older_ints _ _ _ _ _ _ _ _ Ha Hb Hc Hd) as Ho.
  assert (Hyes : (a < c ∧ b < d)%Z →
     reconcile h g
     = (Raise (RuntimeError (too_old_msg req_major req_minor v)), g)).
  { intros [Hac Hbd]. apply Z.ltb_lt in Hac, Hbd. rewrite Hac, Hbd in Ho.
    now apply reconcile_too_old with major minor rest ob req_rest. }
  assert (Hno : ¬ (a < c ∧ b < d)%Z →
     ∃ l1 l2, INSTALL_REQUIRES g = l1 ++ ob :: l2 ∧ Forall not_opencv l1
       ∧ reconcile h g
         = (Ok (), Globals (l1 ++ l2) (stdout g ++ [removing_msg]))).
  { intros Hn.
    apply reconcile_removes
      with v major minor rest req_major req_minor req_rest; try assumption.
    rewrite Ho. f_equal. apply andb_false_iff.
    destruct (Z.ltb_spec a c); [|now left].
    destruct (Z.ltb_spec b d); [|now right]. exfalso. apply Hn. now split. }
  assert (Hiff : is_raise (reconcile h g).1 = true ↔ (a < c ∧ b < d)%Z).
  { split.
    - intros Hr. destruct (Z.lt_ge_cases a c) as [Hac|Hac];
        [destruct (Z.lt_ge_cases b d) as [Hbd|Hbd]; [now split|] |].
      + destruct Hno as (l1 & l2 & _ & _ & Heq); [lia|].
        rewrite Heq in Hr. discriminate.
      + destruct Hno as (l1 & l2 & _ & _ & Heq); [lia|].
        rewrite Heq in Hr. discriminate.
    - intros Hlt. now rewrite (Hyes Hlt). }
  split; [assumption|]. split; [assumption|]. split; [assumption|].
  intros v' t i l co n o Hp ->.
  now rewrite (run_raise_iff _ _ _ _ _ _ _ _ Hp).
Qed.

Lemma reconcile_version_check_witness :
  is_raise (reconcile (sample_host (Some "3.4.0"))
              (Globals ["opencv-python>=4.5.0"; "numpy>=1.21"] [])).1 = true
  ↔ (3 < 4 ∧ 4 < 5)%Z.
Proof.
  apply (reconcile_version_check (sample_host (Some "3.4.0"))
           (Globals ["opencv-python>=4.5.0"; "numpy>=1.21"] [])
           "3.4.0" "3" "4" ["0"] "opencv-python>=4.5.0" "4" "5" ["0"] 3 4 4 5);
    vm_compute; reflexivity.
Defined.

(** C7, as stated, fails: with an earlier entry that starts with
    [opencv-python] the script checks that entry instead, and here raises
    [RuntimeError] although the list holds [opencv-python>=4.5.0] and 4.6.0
    is installed. *)
Lemma earlier_opencv_entry_raises :
  In "opencv-python>=4.5.0"
     ["opencv-python-headless>=5.7.0"; "opencv-python>=4.5.0"]
  ∧ reconcile (sample_host (Some "4.6.0"))
      (Globals ["opencv-python-headless>=5.7.0"; "opencv-python>=4.5.0"] [])
    = (Raise (RuntimeError "OpenCV >=5.7 is required but 4.6.0 is installed"),
       Globals ["opencv-python-headless>=5.7.0"; "opencv-python>=4.5.0"] []).
Proof. split; [cbn; tauto | vm_compute; reflexivity]. Qed.

(** C7, amended. When version 4.6.0 is installed and [opencv-python>=4.5.0]
    is the first entry of the required list that starts with
    [opencv-python], no error is raised and that occurrence is removed: the
    final list is the list without it, and holds the specifier no more
    unless it was listed again further down; the descriptor carries that
    list. *)
Theorem reconcile_4_6_0 (h : host) (l1 l2 out : list string) :
  cv2 h = Some "4.6.0" → Forall not_opencv l1 →
  reconcile h (Globals (l1 ++ "opencv-python>=4.5.0" :: l2) out)
  = (Ok (), Globals (l1 ++ l2) (out ++ [removing_msg]))
  ∧ (¬ In "opencv-python>=4.5.0" l2 → ¬ In "opencv-python>=4.5.0" (l1 ++ l2))
  ∧ (∀ v t loggers core notebooks openvino,
       prelude h v t (l1 ++ "opencv-python>=4.5.0" :: l2)
         loggers core notebooks openvino →
       ∃ d, run h = (Ok d, Globals (l1 ++ l2) [removing_msg])
            ∧ install_requires d = l1 ++ l2).
Proof.
  intros Hcv Hl1.
  set (ob := "opencv-python>=4.5.0").
  assert (Hf : ∀ out', find_opencv
            (INSTALL_REQUIRES (Globals (l1 ++ ob :: l2) out')) = Some ob).
  { intros out'. cbn [INSTALL_REQUIRES]. now apply find_opencv_first. }
  assert (Hr : ∀ out', reconcile h (Globals (l1 ++ ob :: l2) out')
                       = (Ok (), Globals (l1 ++ l2) (out' ++ [removing_msg]))).
  { intros out'.
    destruct (reconcile_removes h (Globals (l1 ++ ob :: l2) out')
                "4.6.0" "4" "6" ["0"] ob "4" "5" ["0"])
      as (k1 & k2 & Heq & Hk1 & ->);
      [assumption | reflexivity | apply Hf | reflexivity | reflexivity |].
    cbn [INSTALL_REQUIRES stdout] in *.
    assert (Hrem : list_remove ob (k1 ++ ob :: k2) = Ok (k1 ++ k2))
      by now apply list_remove_first.
    rewrite <- Heq, (list_remove_first l1 ob l2 Hl1 eq_refl) in Hrem.
    now injection Hrem as <-. }
  split; [apply Hr|]. split.
  - intros Hl2 Hin. apply in_app_or in Hin as [Hin|Hin]; [|now apply Hl2].
    rewrite List.Forall_forall in Hl1. specialize (Hl1 _ Hin). discriminate.
  - intros v t l c n o Hp. rewrite (run_after_prelude _ _ _ _ _ _ _ _ Hp), Hr.
    cbn [INSTALL_REQUIRES app]. eexists. split; reflexivity.
Qed.

Lemma reconcile_4_6_0_witness :
  reconcile (sample_host (Some "4.6.0"))
    (Globals (["numpy>=1.21"] ++ "opencv-python>=4.5.0" :: ["scipy"]) [])
  = (Ok (), Globals (["numpy>=1.21"] ++ ["scipy"]) ([] ++ [removing_msg])).
Proof.
  apply (reconcile_4_6_0 (sample_host (Some "4.6.0")) ["numpy>=1.21"] ["scipy"] []).
  - reflexivity.
  - repeat constructor.
Defined.

(** C2: version 4.4 does not meet the minimum 4.5, yet the script drops the
    requirement without any error. *)
Theorem older_minor_drops_requirement :
  version_lt 4 4 4 5
  ∧ Py.int "4" = Some 4%Z ∧ Py.int "5" = Some 5%Z
  ∧ segments "4.4.0" = ["4"; "4"; "0"]
  ∧ segments (minimum_text "opencv-python>=4.5.0") = ["4"; "5"; "0"]
  ∧ reconcile (sample_host (Some "4.4.0")) (Globals ["opencv-python>=4.5.0"] [])
    = (Ok (), Globals [] [removing_msg]).
Proof.
  split; [right; lia|]. repeat split; vm_compute; reflexivity.
Qed.

(** C3: with 4.4.0 installed and [opencv-python>=4.5.0] required the script
    raises nothing; the descriptor is produced, without that requirement. *)
Theorem older_minor_reaches_descriptor :
  get_required_packages (files (sample_host (Some "4.4.0"))) ["installer"]
  = Ok ["opencv-python>=4.5.0"; "numpy>=1.21"]
  ∧ ∃ d, run (sample_host (Some "4.4.0"))
         = (Ok d, Globals ["numpy>=1.21"] [removing_msg])
         ∧ install_requires d = ["numpy>=1.21"].
Proof.
  split; [vm_compute; reflexivity|].
  eexists. split; vm_compute; reflexivity.
Qed.

(** * Further properties of the script *)

(** ** Requirement files *)

Lemma lstrip_shape s :
  Py.lstrip s = "" ∨ ∃ c t, Py.lstrip s = String c t ∧ Py.isspace c = false.
Proof.
  induction s as [|c s IH]; cbn [Py.lstrip]; [now left|].
  destruct (Py.isspace c) eqn:Hc; [assumption|]. right. now exists c, s.
Qed.

Lemma rstrip_cons c t :
  Py.isspace c = false → Py.rstrip (String c t) = String c (Py.rstrip t).
Proof.
  intros Hc. cbn [Py.rstrip]. rewrite Hc. now destruct (Py.rstrip t).
Qed.

Lemma rstrip_idem t : Py.rstrip (Py.rstrip t) = Py.rstrip t.
Proof.
  induction t as [|c t IH]; [reflexivity|]. cbn [Py.rstrip].
  destruct (Py.rstrip t) as [|d r] eqn:Hr.
  - destruct (Py.isspace c) eqn:Hc; [reflexivity|].
    cbn [Py.rstrip]. now rewrite Hc.
  - change (Py.rstrip (String c (String d r)))
      with (match Py.rstrip (String d r) with
            | "" => if Py.isspace c then "" else String c ""
            | x => String c x
            end).
    now rewrite IH.
Qed.

Lemma strip_idem s : Py.strip (Py.strip s) = Py.strip s.
Proof.
  unfold Py.strip.
  destruct (lstrip_shape s) as [-> | (c & t & -> & Hc)]; [reflexivity|].
  rewrite (rstrip_cons _ _ Hc). cbn [Py.lstrip]. rewrite Hc.
  rewrite <- (rstrip_cons _ _ Hc). apply rstrip_idem.
Qed.

Lemma named_files_scan fs files : ∀ contents acc,
  named_files fs files contents →
  scan_files fs acc files = Ok (acc ++ concat (List.map valid_specifiers contents)).
Proof.
  unfold named_files.
  induction files as [|f files IH]; intros contents acc H; inversion H; subst.
  - cbn. now rewrite app_nil_r.
  - cbn [scan_files List.map concat].
    match goal with Hf : _ !! _ = Some _ |- _ => rewrite Hf end.
    rewrite (IH _ _ ltac:(eassumption)), scan_file_spec.
    now rewrite <- app_assoc.
Qed.

Lemma scan_files_Ok_named fs files : ∀ acc l,
  scan_files fs acc files = Ok l → ∃ contents, named_files fs files contents.
Proof.
  unfold named_files.
  induction files as [|f files IH]; intros acc l H.
  - exists []. constructor.
  - cbn [scan_files] in H. destruct (fs !! requirement_path f) as [file|] eqn:Hf;
      [|discriminate].
    destruct (IH _ _ H) as [contents Hc]. exists (file :: contents).
    now constructor.
Qed.

Lemma get_required_packages_Ok fs requirement_files l :
  get_required_packages fs requirement_files = Ok l →
  ∃ contents, named_files fs requirement_files contents
              ∧ l = concat (List.map valid_specifiers contents).
Proof.
  unfold get_required_packages. intros H.
  destruct (scan_files_Ok_named _ _ _ _ H) as [contents Hc].
  exists contents. split; [assumption|].
  rewrite (named_files_scan _ _ _ [] Hc) in H. now injection H as <-.
Qed.

(** [get_required_packages] succeeds exactly when every named file exists,
    and then returns the valid specifiers of the files, one file after the
    other in the order the categories were given. *)
Theorem get_required_packages_all_files
    (fs : gmap string (list string)) (requirement_files l : list string) :
  get_required_packages fs requirement_files = Ok l
  ↔ ∃ contents, named_files fs requirement_files contents
                ∧ l = concat (List.map valid_specifiers contents).
Proof.
  split.
  - apply get_required_packages_Ok.
  - intros (contents & Hc & ->). unfold get_required_packages.
    now rewrite (named_files_scan _ _ _ [] Hc).
Qed.

Lemma get_required_packages_all_files_witness :
  get_required_packages sample_files ["core"; "loggers"]
  = Ok ["torch>=2.0"; "wandb"; "comet-ml"].
Proof.
  apply (proj2 (get_required_packages_all_files sample_files
                  ["core"; "loggers"] ["torch>=2.0"; "wandb"; "comet-ml"])).
  exists [["torch>=2.0"]; ["wandb"; "comet-ml"]]. split; [|reflexivity].
  repeat constructor.
Defined.

(** The only exception [get_required_packages] raises is
    [FileNotFoundError], and it names the first category, in list order,
    whose file is missing: the files of all earlier categories exist. *)
Theorem get_required_packages_first_missing
    (fs : gmap string (list string)) (requirement_files : list string) (e : exn) :
  get_required_packages fs requirement_files = Raise e
  ↔ ∃ before f after,
      requirement_files = before ++ f :: after
      ∧ Forall (λ x, is_Some (fs !! requirement_path x)) before
      ∧ fs !! requirement_path f = None
      ∧ e = FileNotFoundError (requirement_path f).
Proof.
  unfold get_required_packages. generalize (@nil string) as acc.
  induction requirement_files as [|x xs IH]; intros acc; cbn [scan_files].
  - split; [discriminate|]. intros (b & f & a & H & _). now destruct b.
  - destruct (fs !! requirement_path x) as [file|] eqn:Hx.
    + rewrite IH. split.
      * intros (b & f & a & -> & Hb & Hf & ->). exists (x :: b), f, a.
        repeat split; try assumption. constructor; [now rewrite Hx | assumption].
      * intros (b & f & a & Heq & Hb & Hf & ->). destruct b as [|y b].
        -- injection Heq as -> ->. congruence.
        -- injection Heq as -> ->. inversion Hb; subst. now exists b, f, a.
    + split.
      * intros [= <-]. exists [], x, xs. now repeat split.
      * intros (b & f & a & Heq & Hb & Hf & ->). destruct b as [|y b].
        -- now injection Heq as -> ->.
        -- injection Heq as -> ->. inversion Hb as [|? ? [? Hy] ?]; subst.
           congruence.
Qed.

Lemma get_required_packages_first_missing_witness :
  get_required_packages sample_files ["core"; "docs"; "tests"]
  = Raise (FileNotFoundError (requirement_path "docs")).
Proof.
  apply (proj2 (get_required_packages_first_missing sample_files
                  ["core"; "docs"; "tests"] _)).
  exists ["core"], "docs", ["tests"]. split; [reflexivity|].
  split; [|split; [vm_compute; reflexivity | reflexivity]].
  constructor; [|constructor]. eexists. vm_compute. reflexivity.
Defined.

(** Every requirement returned carries no surrounding whitespace: stripping
    it again changes nothing; and a file whose lines were already stripped
    gives the same requirements. *)
Theorem requirements_are_stripped
    (fs : gmap string (list string)) (requirement_files l : list string) :
  get_required_packages fs requirement_files = Ok l →
  Forall (λ package, Py.strip package = package) l
  ∧ ∀ file, valid_specifiers (List.map Py.strip file) = valid_specifiers file.
Proof.
  intros H. split.
  - apply get_required_packages_Ok in H as (contents & _ & ->).
    apply List.Forall_forall. intros p Hp.
    apply List.in_concat in Hp as (ps & Hps & Hp).
    apply List.in_map_iff in Hps as (file & <- & _).
    unfold valid_specifiers in Hp. apply List.filter_In in Hp as [Hp _].
    apply List.in_map_iff in Hp as (line & <- & _). apply strip_idem.
  - intros file. unfold valid_specifiers. rewrite List.map_map.
    f_equal. apply List.map_ext. intros line. apply strip_idem.
Qed.

Lemma requirements_are_stripped_witness :
  Forall (λ package, Py.strip package = package)
    ["opencv-python>=4.5.0"; "numpy>=1.21"].
Proof.
  apply (requirements_are_stripped sample_files ["installer"]
           ["opencv-python>=4.5.0"; "numpy>=1.21"]).
  vm_compute; reflexivity.
Defined.

(** [get_required_packages] reads the named files and nothing else: two
    directories that agree on the named paths give the same outcome. *)
Theorem get_required_packages_reads_named_only
    (fs1 fs2 : gmap string (list string)) (requirement_files : list string) :
  (∀ f, In f requirement_files →
        fs1 !! requirement_path f = fs2 !! requirement_path f) →
  get_required_packages fs1 requirement_files
  = get_required_packages fs2 requirement_files.
Proof.
  unfold get_required_packages. generalize (@nil string) as acc.
  induction requirement_files as [|x xs IH]; intros acc H; cbn [scan_files];
    [reflexivity|].
  rewrite <- (H x) by now left.
  destruct (fs1 !! requirement_path x); [|reflexivity].
  apply IH. intros f Hf. apply H. now right.
Qed.

Lemma get_required_packages_reads_named_only_witness :
  get_required_packages sample_files ["core"]
  = get_required_packages (delete (requirement_path "loggers") sample_files) ["core"].
Proof.
  apply (get_required_packages_reads_named_only sample_files
           (delete (requirement_path "loggers") sample_files) ["core"]).
  intros f [<-|[]]. vm_compute. reflexivity.
Defined.

(** A string is returned exactly when it is the stripped form of a line of
    one of the named files and is a requirement (non-empty, no [#] or [-f]
    in front). *)
Theorem get_required_packages_membership
    (fs : gmap string (list string)) (requirement_files l : list string)
    (package : string) :
  get_required_packages fs requirement_files = Ok l →
  (In package l
   ↔ ∃ f file line,
       In f requirement_files ∧ fs !! requirement_path f = Some file
       ∧ In line file ∧ Py.strip line = package
       ∧ is_requirement package = true).
Proof.
  intros H. apply get_required_packages_Ok in H as (contents & Hc & ->).
  unfold named_files in Hc. rewrite List.in_concat. split.
  - intros (ps & Hps & Hp). apply List.in_map_iff in Hps as (file & <- & Hfile).
    unfold valid_specifiers in Hp. apply List.filter_In in Hp as [Hp Hreq].
    apply List.in_map_iff in Hp as (line & Hline & Hin).
    induction Hc as [|f file' fl cl Hf _ IH]; [destruct Hfile|].
    destruct Hfile as [->|Hfile].
    + exists f, file, line. repeat split; try assumption. now left.
    + destruct (IH Hfile) as (f0 & file0 & line0 & Hin0 & ?).
      exists f0, file0, line0. split; [now right | assumption].
  - intros (f & file & line & Hf & Hfile & Hline & Hstrip & Hreq).
    exists (valid_specifiers file). split.
    + apply List.in_map. clear Hline.
      induction Hc as [|f' file' fl cl Hf' _ IH]; [destruct Hf|].
      destruct Hf as [->|Hf]; [left; congruence | right; now apply IH].
    + unfold valid_specifiers. apply List.filter_In. split; [|assumption].
      rewrite <- Hstrip. now apply List.in_map.
Qed.

Lemma get_required_packages_membership_witness :
  In "ipykernel" ["ipykernel"; "wandb"]
  ↔ ∃ f file line,
      In f ["notebooks"] ∧ sample_files !! requirement_path f = Some file
      ∧ In line file ∧ Py.strip line = "ipykernel"
      ∧ is_requirement "ipykernel" = true.
Proof.
  apply (get_required_packages_membership sample_files ["notebooks"]
           ["ipykernel"; "wandb"] "ipykernel").
  vm_compute; reflexivity.
Defined.

(** ** The [try] statement *)

Lemma older_true major minor req_major req_minor :
  older major minor req_major req_minor = Ok true →
  ∃ a b c d, Py.int major = Some a ∧ Py.int minor = Some b
             ∧ Py.int req_major = Some c ∧ Py.int req_minor = Some d
             ∧ (a < c)%Z ∧ (b < d)%Z.
Proof.
  unfold older, int. unfold_monad.
  destruct (Py.int major) as [a|]; [|discriminate].
  destruct (Py.int req_major) as [c|]; [|discriminate].
  destruct (Z.ltb_spec a c) as [Hac|]; [|discriminate].
  destruct (Py.int minor) as [b|]; [|discriminate].
  destruct (Py.int req_minor) as [d|]; [|discriminate].
  destruct (Z.ltb_spec b d) as [Hbd|]; [|discriminate].
  intros _. now exists a, b, c, d.
Qed.

Lemma reconcile_paths h g : reconcile_path h g (reconcile h g).
Proof.
  destruct (cv2 h) as [v|] eqn:Hcv.
  2:{ rewrite (reconcile_absent _ _ Hcv). now constructor. }
  destruct (segments v) as [|major [|minor rest]] eqn:Hv.
  1,2: rewrite (reconcile_short h g v Hcv) by (now rewrite Hv);
       apply path_short with v; [assumption | now rewrite Hv].
  destruct (find_opencv (INSTALL_REQUIRES g)) as [ob|] eqn:Hf.
  2:{ rewrite (reconcile_no_opencv h g v major minor rest Hcv Hv Hf).
      eapply path_no_entry; eassumption. }
  destruct (segments (minimum_text ob)) as [|rM [|rm rr]] eqn:Hob.
  1,2: rewrite (reconcile_req_short h g v major minor rest ob Hcv Hv Hf)
         by (now rewrite Hob);
       eapply path_req_short; try eassumption; now rewrite Hob.
  destruct (older_cases major minor rM rm) as [[[] Ho] | Ho].
  - rewrite (reconcile_too_old h g v major minor rest ob rM rm rr Hcv Hv Hf Hob Ho).
    eapply path_too_old; eassumption.
  - destruct (reconcile_removes h g v major minor rest ob rM rm rr Hcv Hv Hf Hob Ho)
      as (l1 & l2 & Hg & Hl1 & ->).
    destruct (find_opencv_Some _ _ Hf) as (_ & _ & _ & _ & Hpre).
    eapply path_removed; eassumption.
  - rewrite (reconcile_value_error h g v major minor rest ob rM rm rr
               Hcv Hv Hf Hob Ho).
    eapply path_not_int; eassumption.
Qed.

(** A failed reconciliation leaves the globals as they were: nothing was
    printed and nothing removed.  The library was importable, and the
    exception is a [ValueError] or a [RuntimeError]; [ImportError] never
    leaves the [try] statement. *)
Theorem reconcile_failure_changes_nothing
    (h : host) (g g' : globals) (e : exn) :
  reconcile h g = (Raise e, g') →
  g' = g ∧ is_Some (cv2 h) ∧ (e = ValueError ∨ ∃ msg, e = RuntimeError msg).
Proof.
  intros H. pose proof (reconcile_paths h g) as Hp. rewrite H in Hp.
  inversion Hp; subst; (split; [reflexivity|]); (split; [eauto|]); eauto.
Qed.

Lemma reconcile_failure_changes_nothing_witness :
  Globals ["opencv-python>=4.5.0"] [] = Globals ["opencv-python>=4.5.0"] []
  ∧ is_Some (cv2 (sample_host (Some "3.4.0")))
  ∧ (RuntimeError "OpenCV >=4.5 is required but 3.4.0 is installed" = ValueError
     ∨ ∃ msg, RuntimeError "OpenCV >=4.5 is required but 3.4.0 is installed"
              = RuntimeError msg).
Proof.
  apply (reconcile_failure_changes_nothing (sample_host (Some "3.4.0"))
           (Globals ["opencv-python>=4.5.0"] [])).
  vm_compute; reflexivity.
Defined.

(** A [RuntimeError] is raised only on one path: the library is importable,
    some entry starts with [opencv-python], the first two segments of both
    versions are integer literals, and the installed major and minor are
    both strictly below the required ones; the message names the required
    major and minor and the full installed version. *)
Theorem runtime_error_means_both_below
    (h : host) (g g' : globals) (msg : string) :
  reconcile h g = (Raise (RuntimeError msg), g') →
  ∃ v major minor rest ob req_major req_minor req_rest a b c d,
    cv2 h = Some v ∧ segments v = major :: minor :: rest
    ∧ find_opencv (INSTALL_REQUIRES g) = Some ob
    ∧ segments (minimum_text ob) = req_major :: req_minor :: req_rest
    ∧ Py.int major = Some a ∧ Py.int minor = Some b
    ∧ Py.int req_major = Some c ∧ Py.int req_minor = Some d
    ∧ (a < c)%Z ∧ (b < d)%Z
    ∧ msg = "OpenCV >=" +:+ req_major +:+ "." +:+ req_minor
            +:+ " is required but " +:+ v +:+ " is installed".
Proof.
  intros H. pose proof (reconcile_paths h g) as Hp. rewrite H in Hp.
  inversion Hp; subst.
  match goal with Ho : older _ _ _ _ = Ok true |- _ =>
    destruct (older_true _ _ _ _ Ho) as (a & b & c & d & Ha & Hb & Hc & Hd & Hac & Hbd)
  end.
  do 12 eexists. repeat split; try eassumption; try reflexivity.
Qed.

Lemma runtime_error_means_both_below_witness :
  ∃ v major minor rest ob req_major req_minor req_rest a b c d,
    cv2 (sample_host (Some "3.4.0")) = Some v
    ∧ segments v = major :: minor :: rest
    ∧ find_opencv (INSTALL_REQUIRES (Globals ["opencv-python>=4.5.0"] [])) = Some ob
    ∧ segments (minimum_text ob) = req_major :: req_minor :: req_rest
    ∧ Py.int major = Some a ∧ Py.int minor = Some b
    ∧ Py.int req_major = Some c ∧ Py.int req_minor = Some d
    ∧ (a < c)%Z ∧ (b < d)%Z
    ∧ "OpenCV >=4.5 is required but 3.4.0 is installed"
      = "OpenCV >=" +:+ req_major +:+ "." +:+ req_minor
        +:+ " is required but " +:+ v +:+ " is installed".
Proof.
  apply (runtime_error_means_both_below (sample_host (Some "3.4.0"))
           (Globals ["opencv-python>=4.5.0"] [])
           (Globals ["opencv-python>=4.5.0"] [])).
  vm_compute; reflexivity.
Defined.

(** Whatever the outcome, the reconciliation removes at most one entry, the
    first one that starts with [opencv-python]; every other entry stays, in
    its place. *)
Theorem reconcile_keeps_other_entries
    (h : host) (g g' : globals) (r : result ()) :
  reconcile h g = (r, g') →
  (INSTALL_REQUIRES g' = INSTALL_REQUIRES g
   ∨ ∃ l1 ob l2,
       INSTALL_REQUIRES g = l1 ++ ob :: l2 ∧ INSTALL_REQUIRES g' = l1 ++ l2
       ∧ Forall not_opencv l1 ∧ Py.startswith ob "opencv-python" = true)
  ∧ (∀ x, not_opencv x →
          (In x (INSTALL_REQUIRES g') ↔ In x (INSTALL_REQUIRES g)))
  ∧ (length (INSTALL_REQUIRES g) ≤ S (length (INSTALL_REQUIRES g')))%nat.
Proof.
  intros H. pose proof (reconcile_paths h g) as Hp. rewrite H in Hp.
  assert (Hsame : INSTALL_REQUIRES g' = INSTALL_REQUIRES g →
    (INSTALL_REQUIRES g' = INSTALL_REQUIRES g
     ∨ ∃ l1 ob l2,
         INSTALL_REQUIRES g = l1 ++ ob :: l2 ∧ INSTALL_REQUIRES g' = l1 ++ l2
         ∧ Forall not_opencv l1 ∧ Py.startswith ob "opencv-python" = true)
    ∧ (∀ x, not_opencv x →
            (In x (INSTALL_REQUIRES g') ↔ In x (INSTALL_REQUIRES g)))
    ∧ (length (INSTALL_REQUIRES g) ≤ S (length (INSTALL_REQUIRES g')))%nat).
  { intros ->. split; [now left|]. split; [tauto | lia]. }
  inversion Hp; subst; try (apply Hsame; reflexivity).
  match goal with Hg : INSTALL_REQUIRES g = _ |- _ => rewrite Hg end.
  cbn [INSTALL_REQUIRES]. split; [|split].
  - right. now exists l1, ob, l2.
  - intros x Hx. rewrite !List.in_app_iff. cbn [In]. split; [tauto|].
    intros [?|[<-|?]]; [tauto | | tauto].
    unfold not_opencv in Hx. congruence.
  - rewrite !List.length_app. cbn [length]. lia.
Qed.

Lemma reconcile_keeps_other_entries_witness :
  (length ["numpy>=1.21"; "opencv-python>=4.5.0"; "opencv-python-headless"]
   ≤ S (length ["numpy>=1.21"; "opencv-python-headless"]))%nat.
Proof.
  apply (reconcile_keeps_other_entries (sample_host (Some "4.6.0"))
           (Globals ["numpy>=1.21"; "opencv-python>=4.5.0";
                     "opencv-python-headless"] [])
           (Globals ["numpy>=1.21"; "opencv-python-headless"] [removing_msg])
           (Ok ())).
  vm_compute; reflexivity.
Defined.

(** The reconciliation prints at most one line.  It prints the installing
    message exactly when the library is not importable, and the removal
    message exactly when it has removed an entry. *)
Theorem reconcile_messages (h : host) (g g' : globals) (r : result ()) :
  reconcile h g = (r, g') →
  (stdout g' = stdout g ∨ stdout g' = stdout g ++ [installing_msg]
   ∨ stdout g' = stdout g ++ [removing_msg])
  ∧ (stdout g' = stdout g ++ [installing_msg] ↔ cv2 h = None)
  ∧ (stdout g' = stdout g ++ [removing_msg]
     ↔ length (INSTALL_REQUIRES g) = S (length (INSTALL_REQUIRES g'))).
Proof.
  intros H. pose proof (reconcile_paths h g) as Hp. rewrite H in Hp.
  assert (Hne : ∀ (l : list string) x, l ≠ l ++ [x]).
  { intros l x Heq. apply (f_equal (@length string)) in Heq.
    rewrite List.length_app in Heq. cbn in Heq. lia. }
  assert (Hmsg : ∀ (l : list string), l ++ [installing_msg] ≠ l ++ [removing_msg]).
  { intros l Heq. apply List.app_inv_head in Heq. discriminate. }
  assert (Hlen : ∀ (l : list string), length l ≠ S (length l)) by (intros; lia).
  inversion Hp; subst; cbn [stdout INSTALL_REQUIRES].
  - split; [tauto|]. split; [tauto|]. split; intros Hx; exfalso.
    + now apply (Hmsg (stdout g)).
    + now apply (Hlen (INSTALL_REQUIRES g)).
  - split; [tauto|]. split; split; intros Hx; exfalso;
      try congruence; try (now apply Hne in Hx); now apply Hlen in Hx.
  - split; [tauto|]. split; split; intros Hx; exfalso;
      try congruence; try (now apply Hne in Hx); now apply Hlen in Hx.
  - split; [tauto|]. split; split; intros Hx; exfalso;
      try congruence; try (now apply Hne in Hx); now apply Hlen in Hx.
  - split; [tauto|]. split; split; intros Hx; exfalso;
      try congruence; try (now apply Hne in Hx); now apply Hlen in Hx.
  - split; [tauto|]. split; split; intros Hx; exfalso;
      try congruence; try (now apply Hne in Hx); now apply Hlen in Hx.
  - split; [tauto|]. split; split; intros Hx.
    + exfalso. symmetry in Hx. now apply Hmsg in Hx.
    + congruence.
    + match goal with Hg : INSTALL_REQUIRES g = _ |- _ => rewrite Hg end.
      rewrite !List.length_app. cbn [length]. lia.
    + reflexivity.
Qed.

Lemma reconcile_messages_witness :
  [removing_msg] = [] ++ [removing_msg]
  ↔ length ["opencv-python>=4.5.0"; "numpy>=1.21"] = S (length ["numpy>=1.21"]).
Proof.
  apply (reconcile_messages (sample_host (Some "4.6.0"))
           (Globals ["opencv-python>=4.5.0"; "numpy>=1.21"] [])
           (Globals ["numpy>=1.21"] [removing_msg]) (Ok ())).
  vm_compute; reflexivity.
Defined.

(** ** The script from top to bottom *)

Lemma run_cases h :
  (∃ e g0, run h = (Raise e, g0) ∧ stdout g0 = []
     ∧ ¬ ∃ v t i l c n o, prelude h v t i l c n o)
  ∨ ∃ v t i l c n o, prelude h v t i l c n o.
Proof.
  unfold run, script. unfold_monad.
  destruct (get_version h) as [v|] eqn:Hv.
  2:{ left. eexists _, _. repeat split.
      intros (? & ? & ? & ? & ? & ? & ? & []). congruence. }
  destruct (read_text h) as [t|] eqn:Ht.
  2:{ left. eexists _, _. repeat split.
      intros (? & ? & ? & ? & ? & ? & ? & []). congruence. }
  destruct (get_required_packages (files h) ["installer"]) as [i|] eqn:Hi.
  2:{ left. eexists _, _. repeat split.
      intros (? & ? & ? & ? & ? & ? & ? & []). congruence. }
  destruct (get_required_packages (files h) ["loggers"]) as [l|] eqn:Hl.
  2:{ left. eexists _, _. repeat split.
      intros (? & ? & ? & ? & ? & ? & ? & []). congruence. }
  destruct (get_required_packages (files h) ["core"]) as [c|] eqn:Hc.
  2:{ left. eexists _, _. repeat split.
      intros (? & ? & ? & ? & ? & ? & ? & []). congruence. }
  destruct (get_required_packages (files h) ["notebooks"]) as [n|] eqn:Hn.
  2:{ left. eexists _, _. repeat split.
      intros (? & ? & ? & ? & ? & ? & ? & []). congruence. }
  destruct (get_required_packages (files h) ["openvino"]) as [o|] eqn:Ho.
  2:{ left. eexists _, _. repeat split.
      intros (? & ? & ? & ? & ? & ? & ? & []). congruence. }
  right. exists v, t, i, l, c, n, o. now constructor.
Qed.

Lemma reconcile_subset h g r g' :
  reconcile h g = (r, g') →
  (∀ x, In x (INSTALL_REQUIRES g') → In x (INSTALL_REQUIRES g))
  ∧ (length (INSTALL_REQUIRES g) ≤ S (length (INSTALL_REQUIRES g')))%nat.
Proof.
  intros H. pose proof (reconcile_paths h g) as Hp. rewrite H in Hp.
  inversion Hp; subst; cbn [INSTALL_REQUIRES]; try (split; [tauto | lia]).
  match goal with Hg : INSTALL_REQUIRES g = _ |- _ => rewrite Hg end.
  split.
  - intros x. rewrite !List.in_app_iff. cbn [In]. tauto.
  - rewrite !List.length_app. cbn [length]. lia.
Qed.

(** The inputs are read in the order of the source: the version, the
    README, the installer requirements.  The first one that cannot be read
    decides the exception, and the script stops there: the OpenCV probe has
    not run and nothing was printed. *)
Theorem first_unreadable_input_decides (h : host) (e : exn) :
  (get_version h = Raise e → run h = (Raise e, initial))
  ∧ (is_raise (get_version h) = false → read_text h = Raise e →
     run h = (Raise e, initial))
  ∧ (is_raise (get_version h) = false → is_raise (read_text h) = false →
     get_required_packages (files h) ["installer"] = Raise e →
     run h = (Raise e, initial)).
Proof.
  unfold run, script. unfold_monad. repeat split.
  - now intros ->.
  - destruct (get_version h); [|discriminate]. now intros _ ->.
  - destruct (get_version h); [|discriminate].
    destruct (read_text h); [|discriminate]. now intros _ _ ->.
Qed.

Lemma first_unreadable_input_decides_witness :
  run (Host (Some None) None sample_files (Some "3.4.0") [])
  = (Raise (AttributeError "__version__"), initial).
Proof.
  apply (proj1 (first_unreadable_input_decides
                  (Host (Some None) None sample_files (Some "3.4.0") [])
                  (AttributeError "__version__"))).
  reflexivity.
Defined.

(** The script produces a descriptor exactly when every input is readable
    and the library is absent, or present with a version of at least two
    segments and either no entry starts with [opencv-python] or the first
    such entry passes the version check. *)
Theorem run_succeeds_iff (h : host) :
  is_raise (run h).1 = false
  ↔ ∃ v t installer loggers core notebooks openvino,
      prelude h v t installer loggers core notebooks openvino
      ∧ (cv2 h = None
         ∨ ∃ installed major minor rest,
             cv2 h = Some installed ∧ segments installed = major :: minor :: rest
             ∧ (find_opencv installer = None
                ∨ ∃ ob req_major req_minor req_rest,
                    find_opencv installer = Some ob
                    ∧ segments (minimum_text ob)
                      = req_major :: req_minor :: req_rest
                    ∧ older major minor req_major req_minor = Ok false)).
Proof.
  split.
  - intros Hok. destruct (run_cases h) as [(e & g0 & Hrun & _) | Hp].
    { rewrite Hrun in Hok. discriminate. }
    destruct Hp as (v & t & i & l & c & n & o & Hp).
    exists v, t, i, l, c, n, o. split; [assumption|].
    rewrite (run_raise_iff _ _ _ _ _ _ _ _ Hp) in Hok.
    pose proof (reconcile_paths h (Globals i [])) as Hpath.
    destruct (reconcile h (Globals i [])) as [r g'].
    inversion Hpath; subst; cbn [INSTALL_REQUIRES] in *; try discriminate.
    + now left.
    + right. do 4 eexists. split; [eassumption|]. split; [eassumption|]. now left.
    + right. do 4 eexists. split; [eassumption|]. split; [eassumption|].
      right. do 4 eexists. split; [eassumption|]. split; eassumption.
  - intros (v & t & i & l & c & n & o & Hp & Hcase).
    rewrite (run_raise_iff _ _ _ _ _ _ _ _ Hp).
    destruct Hcase as [Hcv | (ver & major & minor & rest & Hcv & Hv & Hcase)].
    + now rewrite (reconcile_absent _ _ Hcv).
    + destruct Hcase as [Hf | (ob & rM & rm & rr & Hf & Hob & Ho)].
      * now rewrite (reconcile_no_opencv h (Globals i []) ver major minor rest).
      * destruct (reconcile_removes h (Globals i []) ver major minor rest
                    ob rM rm rr Hcv Hv Hf Hob Ho) as (l1 & l2 & _ & _ & ->).
        reflexivity.
Qed.

Lemma run_succeeds_iff_witness :
  is_raise (run (sample_host (Some "4.4.0"))).1 = false.
Proof.
  apply (proj2 (run_succeeds_iff (sample_host (Some "4.4.0")))).
  do 7 eexists. split; [apply (sample_prelude (Some "4.4.0"))|].
  right. exists "4.4.0", "4", "4", ["0"]. split; [reflexivity|].
  split; [reflexivity|]. right.
  exists "opencv-python>=4.5.0", "4", "5", ["0"].
  split; [reflexivity|]. split; reflexivity.
Defined.

(** The extras are built before the OpenCV probe and never touched by it:
    two hosts with the same files get the same extras whatever OpenCV they
    have, under the keys loggers, core, notebooks, openvino and full in that
    order, each holding the collected list of its category. *)
Theorem extras_ignore_opencv (h1 h2 : host) (d1 d2 : descriptor)
    (g1 g2 : globals) :
  files h1 = files h2 →
  run h1 = (Ok d1, g1) → run h2 = (Ok d2, g2) →
  extras_require d1 = extras_require d2
  ∧ List.map fst (extras_require d1)
    = ["loggers"; "core"; "notebooks"; "openvino"; "full"]
  ∧ ∀ category, In category ["loggers"; "core"; "notebooks"; "openvino"] →
      option_map Ok (dict_get (extras_require d1) category)
      = Some (get_required_packages (files h1) [category]).
Proof.
  intros Hfs H1 H2.
  destruct (run_Ok_inv _ _ _ H1)
    as (v1 & t1 & i1 & l1 & c1 & n1 & o1 & [_ _ _ Hl1 Hc1 Hn1 Ho1] & _ & ->).
  destruct (run_Ok_inv _ _ _ H2)
    as (v2 & t2 & i2 & l2 & c2 & n2 & o2 & [_ _ _ Hl2 Hc2 Hn2 Ho2] & _ & ->).
  cbn [extras_require setup_args]. rewrite <- Hfs in *.
  assert (l1 = l2) as <- by congruence. assert (c1 = c2) as <- by congruence.
  assert (n1 = n2) as <- by congruence. assert (o1 = o2) as <- by congruence.
  split; [reflexivity|]. split; [reflexivity|].
  intros category [<-|[<-|[<-|[<-|[]]]]];
    [rewrite Hl1 | rewrite Hc1 | rewrite Hn1 | rewrite Ho1]; reflexivity.
Qed.

Lemma extras_ignore_opencv_witness :
  ∃ d1 d2 g1 g2,
    run (sample_host (Some "4.6.0")) = (Ok d1, g1)
    ∧ run (sample_host None) = (Ok d2, g2)
    ∧ extras_require d1 = extras_require d2.
Proof.
  do 4 eexists. split; [vm_compute; reflexivity|].
  split; [vm_compute; reflexivity|].
  eapply (extras_ignore_opencv (sample_host (Some "4.6.0")) (sample_host None));
    [reflexivity | vm_compute; reflexivity | vm_compute; reflexivity].
Defined.

(** The descriptor reflects what was read: its version is the package's
    [__version__], its long description the README, its packages what
    [find_packages] found.  Its requirement list is the very list held in
    [INSTALL_REQUIRES] at the end, drawn from the installer requirements
    with at most one entry missing. *)
Theorem descriptor_reflects_inputs (h : host) (d : descriptor) (g : globals) :
  run h = (Ok d, g) →
  get_version h = Ok (version d)
  ∧ read_text h = Ok (long_description d)
  ∧ packages d = src_packages h
  ∧ install_requires d = INSTALL_REQUIRES g
  ∧ ∃ installer,
      get_required_packages (files h) ["installer"] = Ok installer
      ∧ (∀ x, In x (install_requires d) → In x installer)
      ∧ (length installer ≤ S (length (install_requires d)))%nat.
Proof.
  intros H.
  destruct (run_Ok_inv _ _ _ H) as (v & t & i & l & c & n & o & [] & Hr & ->).
  cbn [version long_description packages install_requires setup_args].
  repeat (split; [assumption || reflexivity|]).
  exists i. split; [assumption|]. apply (reconcile_subset _ _ _ _ Hr).
Qed.

Lemma descriptor_reflects_inputs_witness :
  ∃ d g, run (sample_host (Some "4.6.0")) = (Ok d, g)
         ∧ get_version (sample_host (Some "4.6.0")) = Ok (version d).
Proof.
  do 2 eexists. split; [vm_compute; reflexivity|].
  eapply (descriptor_reflects_inputs (sample_host (Some "4.6.0"))).
  vm_compute; reflexivity.
Defined.

(** The script prints at most one line, and only when it goes on to produce
    the descriptor: the installing message when the library is absent, the
    removal message when it is present. *)
Theorem script_prints_at_most_one_line (h : host) :
  (stdout (run h).2 = [] ∨ stdout (run h).2 = [installing_msg]
   ∨ stdout (run h).2 = [removing_msg])
  ∧ (stdout (run h).2 = [installing_msg] →
     cv2 h = None ∧ is_raise (run h).1 = false)
  ∧ (stdout (run h).2 = [removing_msg] →
     is_Some (cv2 h) ∧ is_raise (run h).1 = false).
Proof.
  destruct (run_cases h) as [(e & g0 & -> & Hout & _) | Hp].
  { cbn [fst snd]. rewrite Hout. split; [now left|]. split; discriminate. }
  destruct Hp as (v & t & i & l & c & n & o & Hp).
  rewrite (run_after_prelude _ _ _ _ _ _ _ _ Hp).
  pose proof (reconcile_paths h (Globals i [])) as Hpath.
  destruct (reconcile h (Globals i [])) as [r g'].
  inversion Hpath; subst; cbn [fst snd stdout app is_raise];
    (split; [tauto|]); split; intros Hx; try discriminate Hx;
    (split; [eauto | reflexivity]).
Qed.

Lemma script_prints_at_most_one_line_witness :
  is_Some (cv2 (sample_host (Some "4.6.0")))
  ∧ is_raise (run (sample_host (Some "4.6.0"))).1 = false.
Proof.
  apply (proj2 (proj2 (script_prints_at_most_one_line
                         (sample_host (Some "4.6.0"))))).
  vm_compute; reflexivity.
Defined.

(** ** Two more consequences *)

(** Cutting a requirement file in two and naming both halves gives the same
    list as the whole file. *)
Theorem split_file_same_requirements
    (fs : gmap string (list string)) (whole first second : string)
    (fa fb : list string) :
  fs !! requirement_path first = Some fa →
  fs !! requirement_path second = Some fb →
  fs !! requirement_path whole = Some (fa ++ fb) →
  get_required_packages fs [whole] = get_required_packages fs [first; second].
Proof.
  intros Ha Hb Hw. unfold get_required_packages. cbn [scan_files].
  rewrite Ha, Hb, Hw, !scan_file_spec. cbn [app].
  unfold valid_specifiers. now rewrite List.map_app, List.filter_app.
Qed.

Lemma split_file_same_requirements_witness :
  get_required_packages
    (<[requirement_path "all" := ["wandb"; "comet-ml"; "torch>=2.0"]]> sample_files)
    ["all"]
  = get_required_packages
      (<[requirement_path "all" := ["wandb"; "comet-ml"; "torch>=2.0"]]> sample_files)
      ["loggers"; "core"].
Proof.
  apply (split_file_same_requirements
           (<[requirement_path "all" := ["wandb"; "comet-ml"; "torch>=2.0"]]>
              sample_files)
           "all" "loggers" "core" ["wandb"; "comet-ml"] ["torch>=2.0"]);
    vm_compute; reflexivity.
Defined.

(** One component is enough to pass the version check.  When the installed
    major is not below the required major the requirement is dropped and the
    minor segments are not even converted; when the installed minor is not
    below the required minor it is dropped whatever the majors are. *)
Theorem check_passes_on_one_component (h : host) (g : globals)
    (v major minor : string) (rest : list string)
    (ob req_major req_minor : string) (req_rest : list string) (a c : Z) :
  cv2 h = Some v → segments v = major :: minor :: rest →
  find_opencv (INSTALL_REQUIRES g) = Some ob →
  segments (minimum_text ob) = req_major :: req_minor :: req_rest →
  Py.int major = Some a → Py.int req_major = Some c →
  ((c ≤ a)%Z
   ∨ ∃ b d, Py.int minor = Some b ∧ Py.int req_minor = Some d ∧ (d ≤ b)%Z) →
  ∃ l1 l2, INSTALL_REQUIRES g = l1 ++ ob :: l2 ∧ Forall not_opencv l1
    ∧ reconcile h g = (Ok (), Globals (l1 ++ l2) (stdout g ++ [removing_msg])).
Proof.
  intros Hcv Hv Hf Hob Ha Hc Hone.
  apply reconcile_removes
    with v major minor rest req_major req_minor req_rest; try assumption.
  unfold older, int. unfold_monad. rewrite Ha, Hc.
  destruct (Z.ltb_spec a c) as [Hac|Hac]; [|reflexivity].
  destruct Hone as [Hca | (b & d & -> & -> & Hdb)]; [lia|].
  destruct (Z.ltb_spec b d); [lia | reflexivity].
Qed.

Lemma check_passes_on_one_component_witness :
  ∃ l1 l2, ["opencv-python>=4.5.0"; "numpy>=1.21"]
           = l1 ++ "opencv-python>=4.5.0" :: l2
    ∧ Forall not_opencv l1
    ∧ reconcile (sample_host (Some "3.9.0"))
        (Globals ["opencv-python>=4.5.0"; "numpy>=1.21"] [])
      = (Ok (), Globals (l1 ++ l2) ([] ++ [removing_msg])).
Proof.
  apply (check_passes_on_one_component (sample_host (Some "3.9.0"))
           (Globals ["opencv-python>=4.5.0"; "numpy>=1.21"] [])
           "3.9.0" "3" "9" ["0"] "opencv-python>=4.5.0" "4" "5" ["0"] 3 4);
    try (vm_compute; reflexivity).
  right. exists 9%Z, 5%Z. split; [reflexivity|]. split; [reflexivity|].
  vm_compute. discriminate.
Defined.
